(** * RoyalShoeShop: inventory, cart and dashboard statistics

    A shallow embedding of the storefront routes (product creation, add to
    cart, cart count) and of the admin dashboard statistics, together with
    the properties the design document states about them.

    Conventions of the embedding:
    - JavaScript integers are [Z]; [NaN] is [None] in [option Z].
    - Money amounts are exact rationals [Q] (no rounding of doubles).
    - A request body is a finite map from field names to values.
    - MongoDB collections are lists of documents; the carts collection,
      which the routes only ever address by its owner, is a finite map from
      the user id to the cart's items. *)

From Stdlib Require Import ZArith QArith Qround String Ascii List Lia Lqa.
From Stdlib Require DecimalString.
From Stdlib Require Import Sorted.
From stdpp Require Import gmap strings list fin_maps.
Import ListNotations.

Local Open Scope string_scope.
Local Open Scope list_scope.
Local Open Scope Z_scope.

(** ** JavaScript built-ins used by the routes *)

Module Js.

(** White space skipped by [parseInt] and removed by [trim] (the ASCII
    part of the ECMAScript WhiteSpace and LineTerminator classes). *)
Definition is_ws (c : ascii) : bool :=
  match nat_of_ascii c with
  | 9%nat | 10%nat | 11%nat | 12%nat | 13%nat | 32%nat => true
  | _ => false
  end.

Fixpoint skip_ws (s : string) : string :=
  match s with
  | String c r => if is_ws c then skip_ws r else s
  | EmptyString => s
  end.

(** Value of a character as a digit in a radix up to 36. *)
Definition digit_val (c : ascii) : option Z :=
  let n := Z.of_nat (nat_of_ascii c) in
  if (48 <=? n) && (n <=? 57) then Some (n - 48)
  else if (97 <=? n) && (n <=? 122) then Some (n - 87)
  else if (65 <=? n) && (n <=? 90) then Some (n - 55)
  else None.

(** The longest prefix of digits of the radix, as a number; [acc] is
    [None] until a first digit has been read. *)
Fixpoint parse_digits (radix : Z) (s : string) (acc : option Z) : option Z :=
  match s with
  | EmptyString => acc
  | String c r =>
      match digit_val c with
      | Some d =>
          if d <? radix
          then parse_digits radix r
                 (Some (match acc with Some a => a * radix + d | None => d end))
          else acc
      | None => acc
      end
  end.

(** [parseInt(string)] with no radix argument: leading white space, an
    optional sign, an optional [0x] prefix, then digits; [None] is NaN. *)
Definition parseInt (s : string) : option Z :=
  let s1 := skip_ws s in
  let '(neg, s2) :=
    match s1 with
    | String "-" r => (true, r)
    | String "+" r => (false, r)
    | _ => (false, s1)
    end in
  let '(radix, s3) :=
    match s2 with
    | String "0" (String "x" r) => (16, r)
    | String "0" (String "X" r) => (16, r)
    | _ => (10, s2)
    end in
  match parse_digits radix s3 None with
  | Some n => Some (if neg then - n else n)
  | None => None
  end.

(** [String(n)] for an integer or NaN, as a template literal inserts it
    (integers are printed in full, as JavaScript does below 10^21). *)
Definition numToString (n : option Z) : string :=
  match n with
  | Some z => DecimalString.NilZero.string_of_int (Z.to_int z)
  | None => "NaN"
  end.

(** [x || 0] on a number: NaN and 0 are falsy. *)
Definition orZero (n : option Z) : Z :=
  match n with Some z => z | None => 0 end.

(** [x > 0] on a number: false for NaN. *)
Definition isPositive (n : option Z) : bool :=
  match n with Some z => 0 <? z | None => false end.

End Js.

(** ** Request bodies *)

(** A field of a parsed form body: one value, or several when the field is
    repeated (checkbox groups). *)
Inductive BodyVal :=
| BStr (s : string)
| BArr (l : list string).

(** Truthiness of [req.body[k]]: a missing field and the empty string are
    falsy, an array is truthy. *)
Definition truthy (v : option BodyVal) : bool :=
  match v with
  | None => false
  | Some (BStr s) => negb (String.eqb s "")
  | Some (BArr _) => true
  end.

(** [parseInt(req.body[k])]: the argument is first converted to a string
    ([undefined] to ["undefined"], an array to its comma-joined items). *)
Definition bodyParseInt (v : option BodyVal) : option Z :=
  match v with
  | None => Js.parseInt "undefined"
  | Some (BStr s) => Js.parseInt s
  | Some (BArr l) => Js.parseInt (String.concat "," l)
  end.

(** ** Product creation: the sizes of the new product *)

(** The object [{ size, quantity }] as the route builds it; [size] comes
    from [parseInt] and may be NaN. *)
Record RawSize := mkRawSize { raw_size : option Z; raw_quantity : Z }.

(** A stored size entry of a product. *)
Record SizeEntry := mkSizeEntry { sz_size : Z; sz_quantity : Z }.

Definition quantityKey (size : option Z) : string :=
  "size_" +:+ Js.numToString size +:+ "_quantity".

(** The checkbox pass: one entry per selected size whose quantity field
    parses to a positive number. *)
Definition sizesFromCheckboxes (body : gmap string BodyVal) : list RawSize :=
  if truthy (body !! "sizes") then
    let sizesArray :=
      match body !! "sizes" with
      | Some (BArr l) => l
      | Some (BStr s) => [s]
      | None => []
      end in
    flat_map (fun sizeStr =>
      let size := Js.parseInt sizeStr in
      let quantity := Js.orZero (bodyParseInt (body !! quantityKey size)) in
      if 0 <? quantity then [mkRawSize size quantity] else []) sizesArray
  else [].

(** The fallback pass over the individual fields [size_6_quantity] to
    [size_12_quantity]. *)
Definition sizesFromFields (body : gmap string BodyVal) : list RawSize :=
  flat_map (fun size =>
    let v := body !! quantityKey (Some size) in
    if truthy v && Js.isPositive (bodyParseInt v)
    then [mkRawSize (Some size) (Js.orZero (bodyParseInt v))]
    else []) [6; 7; 8; 9; 10; 11; 12].

Definition defaultSizes : list RawSize := [mkRawSize (Some 9) 10].

(** Step 3 of [POST /products/create]: checkboxes, else individual fields,
    else the default size. *)
Definition processSizes (body : gmap string BodyVal) : list RawSize :=
  let sizes := sizesFromCheckboxes body in
  let sizes :=
    match sizes with
    | [] => sizesFromFields body
    | _ => sizes
    end in
  match sizes with
  | [] => defaultSizes
  | _ => sizes
  end.

(** Step 7: [sizes.reduce((sum, size) => sum + size.quantity, 0)]. *)
Definition rawTotalStock (sizes : list RawSize) : Z :=
  fold_left (fun sum s => sum + raw_quantity s) sizes 0.

(** What the product schema stores of the list: a size that is NaN does not
    cast to a number, and the product is then not saved. *)
Definition castSize (r : RawSize) : option SizeEntry :=
  match raw_size r with
  | Some n => Some (mkSizeEntry n (raw_quantity r))
  | None => None
  end.

Definition castSizes (sizes : list RawSize) : option (list SizeEntry) :=
  mapM castSize sizes.

(** [sizes.reduce((sum, size) => sum + size.quantity, 0)] on stored sizes,
    as the product page and the quick view compute the stock. *)
Definition stockOf (sizes : list SizeEntry) : Z :=
  fold_left (fun sum s => sum + sz_quantity s) sizes 0.

(** ** Documents *)

(** An image reference: the creation route stores Cloudinary objects, the
    edit route stores plain paths. *)
Inductive Image :=
| ImgUrl (path : string)
| ImgObj (url public_id : string).

Record Color := mkColor {
  color_name : string;
  color_code : string;
  color_images : list Image
}.

(** A product document, with the fields the modelled routes read or write.
    [p_stock] and [p_quantity] are the top-level fields [stock] and
    [quantity] the dashboard query filters on and [p_images] the top-level
    [images] field the cart snapshot falls back to; no route in the
    repository writes any of the three. *)
Record Product := mkProduct {
  p_id : string;
  p_name : string;
  p_price : Q;
  p_discountPrice : option Q;
  p_sizes : list SizeEntry;
  p_colors : list Color;
  p_images : list Image;
  p_stock : option Z;
  p_quantity : option Z
}.

(** A cart line: the product reference, the snapshot taken when the line
    was added, and the selected variant. *)
Record CartItem := mkCartItem {
  item_product : string;
  item_name : string;
  item_price : Q;
  item_discountedPrice : option Q;
  item_quantity : Z;
  item_size : Z;
  item_color : string;
  item_image : Image
}.

(** A purchased line copied into an order. *)
Record OrderLine := mkOrderLine {
  ol_product : string;
  ol_name : string;
  ol_price : Q;
  ol_quantity : Z;
  ol_size : Z;
  ol_color : string
}.

Record Order := mkOrder {
  o_id : string;
  o_orderId : option string;
  o_user : string;
  o_items : list OrderLine;
  o_totalAmount : option Q;
  o_status : option string;
  o_orderStatus : option string;
  o_paymentStatus : option string;
  o_createdAt : option Z
}.

Record User := mkUser {
  u_id : string;
  u_createdAt : option Z
}.

(** The persistent state: the four collections. *)
Record Store := mkStore {
  products : list Product;
  carts : gmap string (list CartItem);
  orders : list Order;
  users : list User
}.

(** ** Database access *)

(** The database calls of the modelled routes. Any of them may throw. *)
Inductive Query :=
| QProductCount | QOrderCount | QUserCount | QPendingOrders | QLowStock
| QTodaysOrders | QRecentOrders | QNewUsers | QRevenue
| QProductFindById | QCartFindOne | QCartSave | QCartPopulate.

#[global] Instance Query_eq_dec : EqDecision Query.
Proof. solve_decision. Defined.

(** What a request sees besides the store: which database calls throw, the
    clock, the start of the current day ([setHours(0,0,0,0)]) and the
    platform's date formatting. Times are milliseconds. *)
Record Env := mkEnv {
  fails : Query -> bool;
  now : Z;
  todayStart : Z;
  toLocaleDateString : Z -> string
}.

Inductive Result (A : Type) :=
| Ok (a : A)
| Err (q : Query).
Arguments Ok {A} a.
Arguments Err {A} q.

#[global] Instance Result_ret : MRet Result := fun A a => Ok a.

#[global] Instance Result_bind : MBind Result := fun A B k c =>
  match c with
  | Ok a => k a
  | Err q => Err q
  end.

(** [await q]: the value when the call succeeds, the exception otherwise. *)
Definition await {A} (env : Env) (q : Query) (v : A) : Result A :=
  if fails env q then Err q else Ok v.

Definition findById (pid : string) (ps : list Product) : option Product :=
  find (fun p => String.eqb (p_id p) pid) ps.

(** The total stock of a product. *)
Definition totalStock (p : Product) : Z := stockOf (p_sizes p).

(** ** Cart routes *)

(** [cart.items.reduce((sum, item) => sum + item.quantity, 0)] *)
Definition cartCount (items : list CartItem) : Z :=
  fold_left (fun sum item => sum + item_quantity item) items 0.

Definition imageTruthy (i : Image) : bool :=
  match i with
  | ImgUrl s => negb (String.eqb s "")
  | ImgObj _ _ => true
  end.

Definition defaultImage : Image := ImgUrl "/images/default-product.jpg".

(** [product.colors[0]?.images?.[0] || product.images?.[0] || default] *)
Definition snapshotImage (p : Product) : Image :=
  let first (l : list Image) :=
    match l with
    | i :: _ => if imageTruthy i then Some i else None
    | [] => None
    end in
  let fromColor :=
    match p_colors p with
    | c :: _ => first (color_images c)
    | [] => None
    end in
  match fromColor with
  | Some i => i
  | None =>
      match first (p_images p) with
      | Some i => i
      | None => defaultImage
      end
  end.

(** The predicate of [findIndex]: same product, size and colour. *)
Definition sameLine (pid : string) (size : Z) (color : string) (item : CartItem) : bool :=
  String.eqb (item_product item) pid
  && Z.eqb (item_size item) size
  && String.eqb (item_color item) color.

(** The identity of a line for merging. *)
Definition lineKey (item : CartItem) : string * Z * string :=
  (item_product item, item_size item, item_color item).

(** What a line holds besides its quantity: its key and its snapshot. *)
Definition snapshotOf (item : CartItem)
    : string * Z * string * string * Q * option Q * Image :=
  (item_product item, item_size item, item_color item, item_name item,
   item_price item, item_discountedPrice item, item_image item).

(** The new line pushed for a product not yet in the cart with this variant. *)
Definition newItem (p : Product) (quantity size : Z) (color : string) : CartItem :=
  {| item_product := p_id p;
     item_name := p_name p;
     item_price := p_price p;
     item_discountedPrice := p_discountPrice p;
     item_quantity := quantity;
     item_size := size;
     item_color := color;
     item_image := snapshotImage p |}.

Definition addQuantity (n : Z) (item : CartItem) : CartItem :=
  {| item_product := item_product item;
     item_name := item_name item;
     item_price := item_price item;
     item_discountedPrice := item_discountedPrice item;
     item_quantity := item_quantity item + n;
     item_size := item_size item;
     item_color := item_color item;
     item_image := item_image item |}.

(** [items[findIndex(pred)].quantity += n]: the first matching line. *)
Fixpoint bumpFirst (pid : string) (size : Z) (color : string) (n : Z)
    (items : list CartItem) : option (list CartItem) :=
  match items with
  | [] => None
  | item :: rest =>
      if sameLine pid size color item
      then Some (addQuantity n item :: rest)
      else option_map (cons item) (bumpFirst pid size color n rest)
  end.

(** The items of the cart after the merge-or-append step. *)
Definition mergeItem (p : Product) (quantity size : Z) (color : string)
    (items : list CartItem) : list CartItem :=
  match bumpFirst (p_id p) size color quantity items with
  | Some items' => items'
  | None => items ++ [newItem p quantity size color]
  end.

Inductive AddResponse :=
| AddNotFound                                  (* 404 *)
| AddError                                     (* 500 *)
| AddSuccess (cart : list CartItem) (count : Z).

(** [POST /:id/cart] for the authenticated user [user], on a request that
    sends the size as a number and the colour as a string, the
    representation the cart stores, so that [===] is equality ([addItemRaw]
    below takes the body as it is sent). [quantity] is the integer the
    body's field denotes, on which [parseInt] is the identity, and is
    absent when the field is (the default is then 1).
    Returns the store after the request and the JSON response; the
    response shows the cart's own lines, into which [populate] then loads
    the referenced products. *)
Definition addItem (env : Env) (user pid : string) (quantity : option Z)
    (size : Z) (color : string) (st : Store) : Store * AddResponse :=
  match await env QProductFindById (findById pid (products st)) with
  | Err _ => (st, AddError)
  | Ok None => (st, AddNotFound)
  | Ok (Some product) =>
      let quantity := default 1 quantity in
      match await env QCartFindOne (carts st !! user) with
      | Err _ => (st, AddError)
      | Ok found =>
          let items := default [] found in
          let items' := mergeItem product quantity size color items in
          match await env QCartSave tt with
          | Err _ => (st, AddError)
          | Ok _ =>
              let st' :=
                {| products := products st;
                   carts := <[user := items']> (carts st);
                   orders := orders st;
                   users := users st |} in
              match await env QCartPopulate tt with
              | Err _ => (st', AddError)
              | Ok _ => (st', AddSuccess items' (cartCount items'))
              end
          end
      end
  end.

(** [GET /cart/count]: [user] is [req.user], absent for a visitor. Every
    path answers with a count; a failing lookup is caught and answers 0. *)
Definition count (env : Env) (user : option string) (st : Store) : Z :=
  match user with
  | None => 0
  | Some u =>
      match await env QCartFindOne (carts st !! u) with
      | Err _ => 0
      | Ok (Some items) => cartCount items
      | Ok None => 0
      end
  end.

(** ** Add to cart, on the body as it is sent *)

(** A field of the body of [POST /:id/cart]: absent, a number (JSON) or a
    string (JSON or form). *)
Inductive JsValue :=
| JsUndefined
| JsNumber (n : Z)
| JsString (s : string).

(** [stored === v] for a stored number: no conversion takes place. *)
Definition strictEqNumber (stored : Z) (v : JsValue) : bool :=
  match v with
  | JsNumber n => stored =? n
  | _ => false
  end.

(** [stored === v] for a stored string. *)
Definition strictEqString (stored : string) (v : JsValue) : bool :=
  match v with
  | JsString s => String.eqb stored s
  | _ => false
  end.

(** The predicate of [findIndex] on the body's own values:
    [item.size === size] and [item.color === color] compare what the cart
    stores with what the request sent. *)
Definition sameLineRaw (pid : string) (size color : JsValue) (item : CartItem) : bool :=
  String.eqb (item_product item) pid
  && strictEqNumber (item_size item) size
  && strictEqString (item_color item) color.

Fixpoint bumpFirstRaw (pid : string) (size color : JsValue) (n : Z)
    (items : list CartItem) : option (list CartItem) :=
  match items with
  | [] => None
  | item :: rest =>
      if sameLineRaw pid size color item
      then Some (addQuantity n item :: rest)
      else option_map (cons item) (bumpFirstRaw pid size color n rest)
  end.

(** [const { quantity = 1 } = req.body] followed by [parseInt(quantity)];
    [None] is NaN. *)
Definition requestedQuantity (quantity : JsValue) : option Z :=
  match quantity with
  | JsUndefined => Some 1
  | JsNumber n => Some n
  | JsString s => Js.parseInt s
  end.

(** The integer a string is the decimal notation of, if any. *)
Definition decimalInteger (s : string) : option Z :=
  match Js.parseInt s with
  | Some n => if String.eqb (Js.numToString (Some n)) s then Some n else None
  | None => None
  end.

(** Modelled from the spec: the cart schema, which is not among the
    repository's sources. A line's size is one of the product's sizes, an
    integer, and is stored as a number: a number is kept and the decimal
    notation of an integer is cast to it; a missing size, and any other
    string, is not stored as a size and the save fails. *)
Definition castItemSize (size : JsValue) : option Z :=
  match size with
  | JsNumber n => Some n
  | JsString s => decimalInteger s
  | JsUndefined => None
  end.

(** Modelled from the spec: the colour of a line is stored as a string; a
    number is cast to its notation and a missing colour fails the save. *)
Definition castItemColor (color : JsValue) : option string :=
  match color with
  | JsString s => Some s
  | JsNumber n => Some (Js.numToString (Some n))
  | JsUndefined => None
  end.

(** The items to save after the merge-or-append step, [None] when the
    save is bound to fail: a quantity that is NaN, or a pushed line whose
    size or colour does not cast. *)
Definition mergeItemRaw (p : Product) (quantity : option Z) (size color : JsValue)
    (items : list CartItem) : option (list CartItem) :=
  match quantity with
  | None => None
  | Some q =>
      match bumpFirstRaw (p_id p) size color q items with
      | Some items' => Some items'
      | None =>
          match castItemSize size, castItemColor color with
          | Some n, Some c => Some (items ++ [newItem p q n c])
          | _, _ => None
          end
      end
  end.

(** [POST /:id/cart] on the body as it is sent: [quantity], [size] and
    [color] are the raw fields. On a body that sends the size as a number
    and the colour as a string this is [addItem]. *)
Definition addItemRaw (env : Env) (user pid : string) (quantity size color : JsValue)
    (st : Store) : Store * AddResponse :=
  match await env QProductFindById (findById pid (products st)) with
  | Err _ => (st, AddError)
  | Ok None => (st, AddNotFound)
  | Ok (Some product) =>
      match await env QCartFindOne (carts st !! user) with
      | Err _ => (st, AddError)
      | Ok found =>
          let items := default [] found in
          match mergeItemRaw product (requestedQuantity quantity) size color items with
          | None => (st, AddError)
          | Some items' =>
              match await env QCartSave tt with
              | Err _ => (st, AddError)
              | Ok _ =>
                  let st' :=
                    {| products := products st;
                       carts := <[user := items']> (carts st);
                       orders := orders st;
                       users := users st |} in
                  match await env QCartPopulate tt with
                  | Err _ => (st', AddError)
                  | Ok _ => (st', AddSuccess items' (cartCount items'))
                  end
              end
          end
      end
  end.

(** ** Dashboard statistics *)

Definition optStrEq (a : option string) (b : string) : bool :=
  match a with
  | Some s => String.eqb s b
  | None => false
  end.

(** [Model.countDocuments(filter)] *)
Definition countDocuments {A} (filter : A -> bool) (docs : list A) : Z :=
  Z.of_nat (length (List.filter filter docs)).

(** [{ $or: [{status:'pending'}, {orderStatus:'pending'}, {status:'Pending'}] }] *)
Definition isPending (o : Order) : bool :=
  optStrEq (o_status o) "pending"
  || optStrEq (o_orderStatus o) "pending"
  || optStrEq (o_status o) "Pending".

(** [{ $lt: 10, $gt: 0 }] on a field that may be missing. *)
Definition inLowRange (field : option Z) : bool :=
  match field with
  | Some v => (v <? 10) && (0 <? v)
  | None => false
  end.

(** [{ $or: [{ stock: {$lt:10,$gt:0} }, { quantity: {$lt:10,$gt:0} }] }]:
    the filter reads the product's top-level [stock] and [quantity]. *)
Definition isLowStock (p : Product) : bool :=
  inLowRange (p_stock p) || inLowRange (p_quantity p).

(** [{ createdAt: { $gte: today } }] *)
Definition createdSince (today : Z) (createdAt : option Z) : bool :=
  match createdAt with
  | Some t => today <=? t
  | None => false
  end.

(** Order of [sort({ createdAt: -1 })]: a missing date sorts last. Equal
    dates keep the order of the collection, a choice the database leaves
    open. *)
Definition newer (a b : Order) : bool :=
  match o_createdAt a, o_createdAt b with
  | Some x, Some y => y <? x
  | Some _, None => true
  | None, _ => false
  end.

Fixpoint insertByDate (o : Order) (sorted : list Order) : list Order :=
  match sorted with
  | [] => [o]
  | x :: rest =>
      if newer x o then x :: insertByDate o rest else o :: x :: rest
  end.

(** [Order.find().sort({ createdAt: -1 }).limit(5).lean()] *)
Definition findRecentOrders (os : list Order) : list Order :=
  take 5 (fold_right insertByDate [] os).

(** [{ $or: [{status:'completed'}, {status:'delivered'}, {paymentStatus:'completed'}] }] *)
Definition isCompleted (o : Order) : bool :=
  optStrEq (o_status o) "completed"
  || optStrEq (o_status o) "delivered"
  || optStrEq (o_paymentStatus o) "completed".

Definition sumAmounts (os : list Order) : Q :=
  fold_right (fun o acc => (default 0%Q (o_totalAmount o) + acc)%Q) 0%Q os.

(** [Order.aggregate([{ $match }, { $group: { _id: null, total: { $sum } } }])]:
    one group when some order matches, no group otherwise. *)
Definition aggregateRevenue (os : list Order) : list Q :=
  match List.filter isCompleted os with
  | [] => []
  | matched => [sumAmounts matched]
  end.

(** [Math.round] on an exact rational: the nearest integer, halves up. *)
Definition mathRound (x : Q) : Z := Qfloor (x + (1 # 2)).

Definition Qpositive (x : Q) : bool := negb (Qle_bool x 0).

Record Activity := mkActivity {
  act_title : string;
  act_description : string;
  act_time : string
}.

(** [s.slice(-6)] *)
Definition lastSix (s : string) : string :=
  substring (String.length s - 6) 6 s.

Definition formatTimeAgo (env : Env) (date : option Z) : string :=
  match date with
  | None => "Recently"
  | Some then_ =>
      let diffMs := now env - then_ in
      let diffMins := diffMs / 60000 in
      let diffHours := diffMs / 3600000 in
      let diffDays := diffMs / 86400000 in
      if diffMins <? 1 then "Just now"
      else if diffMins <? 60 then Js.numToString (Some diffMins) +:+ " minutes ago"
      else if diffHours <? 24 then Js.numToString (Some diffHours) +:+ " hours ago"
      else if diffDays <? 7 then Js.numToString (Some diffDays) +:+ " days ago"
      else toLocaleDateString env then_
  end.

Definition orderActivity (env : Env) (o : Order) : Activity :=
  let ref :=
    match o_orderId o with
    | Some s => if String.eqb s "" then lastSix (o_id o) else s
    | None => lastSix (o_id o)
    end in
  {| act_title := "New Order";
     act_description := "Order #" +:+ ref +:+ " placed";
     act_time := formatTimeAgo env (o_createdAt o) |}.

Definition welcomeActivity : Activity :=
  {| act_title := "Welcome to Admin Panel";
     act_description := "Start managing your store to see activities here";
     act_time := "Just now" |}.

Record Stats := mkStats {
  totalProducts : Z;
  lowStockItems : Z;
  totalOrders : Z;
  todaysOrders : Z;
  pendingOrders : Z;
  totalRevenue : Q;
  avgOrderValue : Z;
  totalUsers : Z;
  newUsersToday : Z;
  productChange : Z;
  orderChange : Z;
  userChange : Z;
  revenueChange : Z;
  recentActivities : list Activity
}.

(** The [try] block around the revenue aggregation: a failure is logged and
    the initial 0 is kept. *)
Definition computeRevenue (env : Env) (st : Store) : Q :=
  match await env QRevenue (aggregateRevenue (orders st)) with
  | Ok (total :: _) => total
  | Ok [] => 0%Q
  | Err _ => 0%Q
  end.

Definition computeAvgOrderValue (totalOrders : Z) (totalRevenue : Q) : Z :=
  if (0 <? totalOrders) && Qpositive totalRevenue
  then mathRound (totalRevenue / inject_Z totalOrders)
  else 0.

(** [getDashboardStats()]. The eight calls under [Promise.all] are run in
    the order of the array and the first failure is the one reported; the
    outer [catch] logs and rethrows, so a failure there is the result. *)
Definition getDashboardStats (env : Env) (st : Store) : Result Stats :=
  totalProducts ← await env QProductCount (countDocuments (fun _ => true) (products st));
  totalOrders ← await env QOrderCount (countDocuments (fun _ => true) (orders st));
  totalUsers ← await env QUserCount (countDocuments (fun _ => true) (users st));
  pendingOrders ← await env QPendingOrders (countDocuments isPending (orders st));
  lowStockProducts ← await env QLowStock (countDocuments isLowStock (products st));
  todaysOrders ← await env QTodaysOrders
    (countDocuments (fun o => createdSince (todayStart env) (o_createdAt o)) (orders st));
  recentOrders ← await env QRecentOrders (findRecentOrders (orders st));
  newUsers ← await env QNewUsers
    (countDocuments (fun u => createdSince (todayStart env) (u_createdAt u)) (users st));
  let totalRevenue := computeRevenue env st in
  let avgOrderValue := computeAvgOrderValue totalOrders totalRevenue in
  let recentActivities := map (orderActivity env) recentOrders in
  let recentActivities :=
    match recentActivities with
    | [] => [welcomeActivity]
    | _ => recentActivities
    end in
  let productChange := 12 in
  let orderChange := if 100 <? totalOrders then 8 else 15 in
  let userChange :=
    if 0 <? newUsers
    then mathRound (inject_Z newUsers / inject_Z totalUsers * 100)
    else 5 in
  let revenueChange := 18 in
  mret {| totalProducts := totalProducts;
          lowStockItems := lowStockProducts;
          totalOrders := totalOrders;
          todaysOrders := todaysOrders;
          pendingOrders := pendingOrders;
          totalRevenue := totalRevenue;
          avgOrderValue := avgOrderValue;
          totalUsers := totalUsers;
          newUsersToday := newUsers;
          productChange := productChange;
          orderChange := orderChange;
          userChange := userChange;
          revenueChange := revenueChange;
          recentActivities := recentActivities |}.

(** ** Admin price edit *)

Definition setPrices (price : Q) (discountPrice : option Q) (p : Product) : Product :=
  {| p_id := p_id p;
     p_name := p_name p;
     p_price := price;
     p_discountPrice := discountPrice;
     p_sizes := p_sizes p;
     p_colors := p_colors p;
     p_images := p_images p;
     p_stock := p_stock p;
     p_quantity := p_quantity p |}.

(** Apply [f] to the first element satisfying [test], if any. *)
Fixpoint alterFirst {A} (test : A -> bool) (f : A -> A) (l : list A) : list A :=
  match l with
  | [] => []
  | x :: rest => if test x then f x :: rest else x :: alterFirst test f rest
  end.

(** The two price assignments of [POST /edit/:id]
    ([product.price = ...; product.discountPrice = ...]) followed by
    [product.save()], with the parsed field values as arguments. Only the
    product document is written. *)
Definition editProductPrices (pid : string) (price : Q) (discountPrice : option Q)
    (st : Store) : Store :=
  {| products :=
       alterFirst (fun p => String.eqb (p_id p) pid) (setPrices price discountPrice)
         (products st);
     carts := carts st;
     orders := orders st;
     users := users st |}.

(** ** Pricing, stock and checkout, after the design document *)

(** Modelled from the spec: [effectivePrice], which is not among the
    repository's sources. The discount price when it is present and not
    negative, the base price otherwise. *)
Definition effectivePriceOf (price : Q) (discountPrice : option Q) : Q :=
  match discountPrice with
  | Some d => if Qle_bool 0 d then d else price
  | None => price
  end.

Definition effectivePrice (p : Product) : Q :=
  effectivePriceOf (p_price p) (p_discountPrice p).

(** Modelled from the spec: the derived values of a cart, which [view]
    returns and no source file computes. A line's subtotal is its unit
    price times its quantity, with the discounted price when the snapshot
    has one; the total is the sum of the subtotals. *)
Definition lineSubtotal (item : CartItem) : Q :=
  (default (item_price item) (item_discountedPrice item) * inject_Z (item_quantity item))%Q.

Definition cartTotal (items : list CartItem) : Q :=
  fold_right (fun item acc => (lineSubtotal item + acc)%Q) 0%Q items.

Record CartView := mkCartView {
  view_items : list CartItem;
  view_subtotals : list Q;
  view_total : Q;
  view_count : Z
}.

(** Modelled from the spec: [view(userId)], which is not among the
    repository's sources. The user's lines with the totals derived from
    them; a user without a cart sees an empty cart. *)
Definition view (user : string) (st : Store) : CartView :=
  let items := default [] (carts st !! user) in
  {| view_items := items;
     view_subtotals := map lineSubtotal items;
     view_total := cartTotal items;
     view_count := cartCount items |}.

Definition hasSize (size : Z) (e : SizeEntry) : bool := sz_size e =? size.

(** Modelled from the spec: [availableStock(id, size)], which is not among
    the repository's sources. The quantity of the product's entry for the
    size; nothing is available of an unknown product or size. *)
Definition availableStock (pid : string) (size : Z) (ps : list Product) : Z :=
  match findById pid ps with
  | Some p =>
      match find (hasSize size) (p_sizes p) with
      | Some e => sz_quantity e
      | None => 0
      end
  | None => 0
  end.

(** Whether the catalog has an entry for (product, size). *)
Definition hasStockEntry (pid : string) (size : Z) (ps : list Product) : bool :=
  match findById pid ps with
  | Some p =>
      match find (hasSize size) (p_sizes p) with
      | Some _ => true
      | None => false
      end
  | None => false
  end.

Definition takeFromSize (size amount : Z) (p : Product) : Product :=
  {| p_id := p_id p;
     p_name := p_name p;
     p_price := p_price p;
     p_discountPrice := p_discountPrice p;
     p_sizes :=
       alterFirst (hasSize size)
         (fun e => mkSizeEntry (sz_size e) (sz_quantity e - amount)) (p_sizes p);
     p_colors := p_colors p;
     p_images := p_images p;
     p_stock := p_stock p;
     p_quantity := p_quantity p |}.

(** The catalog after [amount] is taken from the entry of (product, size). *)
Definition stockAfter (pid : string) (size amount : Z) (ps : list Product)
    : list Product :=
  alterFirst (fun p => String.eqb (p_id p) pid) (takeFromSize size amount) ps.

Inductive StockResult :=
| StockOk (ps : list Product)
| InsufficientStock (pid : string) (size requested available : Z).

(** Modelled from the spec: [decrementStock(id, size, amount)], which is not
    among the repository's sources. A conditional decrement: it fails, and
    writes nothing, when the amount exceeds the available quantity. *)
Definition decrementStock (pid : string) (size amount : Z) (ps : list Product)
    : StockResult :=
  let available := availableStock pid size ps in
  if amount <=? available
  then StockOk (stockAfter pid size amount ps)
  else InsufficientStock pid size amount available.

Inductive CheckoutError :=
| EmptyCart
| CheckoutInsufficientStock (pid : string) (size requested available : Z).

(** Step 2: the first line, in cart order, that asks for more than the
    current stock. *)
Fixpoint firstShortLine (ps : list Product) (items : list CartItem)
    : option CheckoutError :=
  match items with
  | [] => None
  | item :: rest =>
      let available := availableStock (item_product item) (item_size item) ps in
      if item_quantity item <=? available
      then firstShortLine ps rest
      else Some (CheckoutInsufficientStock (item_product item) (item_size item)
                   (item_quantity item) available)
  end.

(** Step 3: one [decrementStock] per line, in cart order. *)
Fixpoint decrementAll (items : list CartItem) (ps : list Product)
    : CheckoutError + list Product :=
  match items with
  | [] => inr ps
  | item :: rest =>
      match decrementStock (item_product item) (item_size item) (item_quantity item) ps with
      | StockOk ps' => decrementAll rest ps'
      | InsufficientStock pid size requested available =>
          inl (CheckoutInsufficientStock pid size requested available)
      end
  end.

Definition orderLine (item : CartItem) : OrderLine :=
  {| ol_product := item_product item;
     ol_name := item_name item;
     ol_price := item_price item;
     ol_quantity := item_quantity item;
     ol_size := item_size item;
     ol_color := item_color item |}.

(** Modelled from the spec: [checkout(userId)], which is not among the
    repository's sources. The four steps of the design document;
    [oid] and [createdAt] are the identity and the time the new order gets.
    A failure at any step leaves the store as it was. *)
Definition checkout (oid : string) (createdAt : Z) (user : string) (st : Store)
    : Store * (CheckoutError + Order) :=
  match default [] (carts st !! user) with
  | [] => (st, inl EmptyCart)
  | items =>
      match firstShortLine (products st) items with
      | Some e => (st, inl e)
      | None =>
          match decrementAll items (products st) with
          | inl e => (st, inl e)
          | inr ps' =>
              let order :=
                {| o_id := oid;
                   o_orderId := None;
                   o_user := user;
                   o_items := map orderLine items;
                   o_totalAmount := Some (cartTotal items);
                   o_status := Some "pending";
                   o_orderStatus := None;
                   o_paymentStatus := Some "pending";
                   o_createdAt := Some createdAt |} in
              ({| products := ps';
                  carts := <[user := []]> (carts st);
                  orders := orders st ++ [order];
                  users := users st |},
               inr order)
          end
      end
  end.


(** Whether a cart line draws on the stock of (product, size). *)
Definition onStock (pid : string) (size : Z) (item : CartItem) : bool :=
  String.eqb (item_product item) pid && (item_size item =? size).

(** The quantity the lines of a cart ask of one (product, size), all
    colours together. *)
Definition demand (pid : string) (size : Z) (items : list CartItem) : Z :=
  fold_right (fun item acc =>
    if onStock pid size item then item_quantity item + acc else acc) 0 items.

(** Two product documents that agree on everything but the two prices. *)
Definition samePricesApart (p p' : Product) : Prop :=
  p_id p = p_id p' /\ p_name p = p_name p' /\ p_sizes p = p_sizes p'
  /\ p_colors p = p_colors p' /\ p_images p = p_images p'
  /\ p_stock p = p_stock p' /\ p_quantity p = p_quantity p'.

(** Two stores that differ only in the price fields of their products. *)
Definition differOnlyInPrices (s s' : Store) : Prop :=
  Forall2 samePricesApart (products s) (products s')
  /\ carts s = carts s' /\ orders s = orders s' /\ users s = users s'.

(** The calls gathered under [Promise.all], in the order of the array. *)
Definition promiseAllQueries : list Query :=
  [QProductCount; QOrderCount; QUserCount; QPendingOrders; QLowStock;
   QTodaysOrders; QRecentOrders; QNewUsers].

(** The environment in which the revenue aggregation succeeds and all else
    is as in [env]. *)
Definition revenueSucceeds (env : Env) : Env :=
  {| fails := fun q => if decide (q = QRevenue) then false else fails env q;
     now := now env;
     todayStart := todayStart env;
     toLocaleDateString := toLocaleDateString env |}.

(** The statistics [s] with the two revenue figures replaced. *)
Definition withRevenue (revenue : Q) (average : Z) (s : Stats) : Stats :=
  {| totalProducts := totalProducts s;
     lowStockItems := lowStockItems s;
     totalOrders := totalOrders s;
     todaysOrders := todaysOrders s;
     pendingOrders := pendingOrders s;
     totalRevenue := revenue;
     avgOrderValue := average;
     totalUsers := totalUsers s;
     newUsersToday := newUsersToday s;
     productChange := productChange s;
     orderChange := orderChange s;
     userChange := userChange s;
     revenueChange := revenueChange s;
     recentActivities := recentActivities s |}.

(** The low-stock count as the design document words it: the products
    whose total stock, the sum of their sizes' quantities, lies between 1
    and the threshold. *)
Definition lowStockByTotal (threshold : Z) (ps : list Product) : Z :=
  countDocuments (fun p => (1 <=? totalStock p) && (totalStock p <=? threshold)) ps.

(** ** Product creation: colours and images *)

(** An uploaded file as the upload middleware hands it over. *)
Record UploadedFile := mkFile { file_path : string; file_filename : string }.

(** The colour object the admin routes build: the code is the body's field
    as it came (one value or several) or the default. *)
Record RawColor := mkRawColor {
  rc_name : string;
  rc_code : BodyVal;
  rc_images : list Image
}.

(** [color && color.trim() !== ''] *)
Definition nonBlank (s : string) : bool :=
  negb (String.eqb s "") && negb (String.eqb (Js.skip_ws s) "").

Definition colorCodeKey (name : string) : string := "color_" +:+ name +:+ "_code".

(** [req.body[key] || '#000000'] *)
Definition colorCode (body : gmap string BodyVal) (name : string) : BodyVal :=
  if truthy (body !! colorCodeKey name)
  then default (BStr "#000000") (body !! colorCodeKey name)
  else BStr "#000000".

(** [req.body.x] made an array when it is a single value. *)
Definition asArray (v : option BodyVal) : list string :=
  match v with
  | Some (BArr l) => l
  | Some (BStr s) => [s]
  | None => []
  end.

(** Step 4 of [POST /products/create]: the selected colours, blank names
    dropped, without images yet. *)
Definition processColors (body : gmap string BodyVal) : list RawColor :=
  if truthy (body !! "colors") then
    map (fun colorName => mkRawColor colorName (colorCode body colorName) [])
      (List.filter nonBlank (asArray (body !! "colors")))
  else [].

(** Step 5: [{ url: file.path, public_id: file.filename, secure_url: file.path }] *)
Definition cloudinaryImage (f : UploadedFile) : Image :=
  ImgObj (file_path f) (file_filename f).

(** [Math.ceil(n / k)] on natural numbers, [k] positive. *)
Definition ceilDiv (n k : nat) : nat :=
  (n / k + (if (n mod k =? 0)%nat then 0 else 1))%nat.

(** [l.slice(start, end)] for indices within [0, length]. *)
Definition slice {A} (start end_ : nat) (l : list A) : list A :=
  take (end_ - start) (drop start l).

Definition withImages (c : RawColor) (images : list Image) : RawColor :=
  {| rc_name := rc_name c; rc_code := rc_code c; rc_images := images |}.

(** The [forEach] of step 6 from position [index] on. *)
Fixpoint distributeFrom (index imagesPerColor : nat) (images : list Image)
    (colors : list RawColor) : list RawColor :=
  match colors with
  | [] => []
  | color :: rest =>
      let startIdx := (index * imagesPerColor)%nat in
      let endIdx := Nat.min (startIdx + imagesPerColor) (length images) in
      withImages color (slice startIdx endIdx images)
        :: distributeFrom (S index) imagesPerColor images rest
  end.

(** Step 6: a default colour with all the images when no colour was
    selected, else the images dealt out in runs of [imagesPerColor]. *)
Definition assignImages (colors : list RawColor) (images : list Image)
    : list RawColor :=
  match colors with
  | [] => [mkRawColor "Default" (BStr "#000000") images]
  | _ =>
      distributeFrom 0 (ceilDiv (length images) (length colors)) images colors
  end.

(** The colours of the product [POST /products/create] builds. *)
Definition createColors (body : gmap string BodyVal) (files : list UploadedFile)
    : list RawColor :=
  assignImages (processColors body) (map cloudinaryImage files).

(** ** Product edit: sizes, colours and images *)

(** The object [{ size, quantity }] of the edit route: both numbers come
    from [parseInt]. *)
Record EditedSize := mkEditedSize { es_size : option Z; es_quantity : option Z }.

(** [parseInt(req.body[key] || 0)] *)
Definition parseIntOrZero (v : option BodyVal) : option Z :=
  if truthy v then bodyParseInt v else Some 0.

(** The sizes step of [POST /edit/:id]: the new list when the field is an
    array, [None] when the sizes are left as they are. The quantity field
    is named after the size as it was sent. *)
Definition editSizes (body : gmap string BodyVal) : option (list EditedSize) :=
  match body !! "sizes" with
  | Some (BArr l) =>
      Some (map (fun size =>
                   mkEditedSize (Js.parseInt size)
                     (parseIntOrZero (body !! ("size_" +:+ size +:+ "_quantity"))))
              l)
  | _ => None
  end.

(** The colours step: the new list, without images, when the field is an
    array. *)
Definition editColors (body : gmap string BodyVal) (current : list RawColor)
    : list RawColor :=
  match body !! "colors" with
  | Some (BArr l) => map (fun color => mkRawColor color (colorCode body color) []) l
  | _ => current
  end.

(** [`/uploads/products/${file.filename}`] *)
Definition uploadPath (f : UploadedFile) : Image :=
  ImgUrl ("/uploads/products/" +:+ file_filename f).

(** The images step: new files go to a default colour when there is none,
    else behind the images of the first colour. *)
Definition editImages (files : list UploadedFile) (colors : list RawColor)
    : list RawColor :=
  match files with
  | [] => colors
  | _ =>
      let newImages := map uploadPath files in
      match colors with
      | [] => [mkRawColor "Default" (BStr "#000000") newImages]
      | first :: rest => withImages first (rc_images first ++ newImages) :: rest
      end
  end.

(** The colours of the product after [POST /edit/:id]. *)
Definition editedColors (body : gmap string BodyVal) (files : list UploadedFile)
    (current : list RawColor) : list RawColor :=
  editImages files (editColors body current).

(** ** Quick view *)

Record QuickView := mkQuickView {
  qv_id : string;
  qv_name : string;
  qv_price : Q;
  qv_discountPrice : option Q;
  qv_images : list Image;
  qv_stock : Z;
  qv_sizes : list Z;
  qv_colors : list (string * string)
}.

Inductive QuickViewResponse :=
| QvNotFound                (* 404 *)
| QvError                   (* 500 *)
| QvSuccess (product : QuickView).

(** [product.colors[0]?.images || product.images || []]: an array, even an
    empty one, is truthy. *)
Definition quickImages (p : Product) : list Image :=
  match p_colors p with
  | c :: _ => color_images c
  | [] => p_images p
  end.

(** [product.sizes.filter(s => s.quantity > 0).map(s => s.size)] *)
Definition offeredSizes (p : Product) : list Z :=
  map sz_size (List.filter (fun s => 0 <? sz_quantity s) (p_sizes p)).

(** [GET /:id/quickview] *)
Definition quickview (env : Env) (pid : string) (st : Store) : QuickViewResponse :=
  match await env QProductFindById (findById pid (products st)) with
  | Err _ => QvError
  | Ok None => QvNotFound
  | Ok (Some product) =>
      QvSuccess
        {| qv_id := p_id product;
           qv_name := p_name product;
           qv_price := p_price product;
           qv_discountPrice := p_discountPrice product;
           qv_images := quickImages product;
           qv_stock := stockOf (p_sizes product);
           qv_sizes := offeredSizes product;
           qv_colors := map (fun c => (color_name c, color_code c)) (p_colors product) |}
  end.

(** [{ 'sizes.quantity': { $gt: 0 } }]: some size entry has a positive
    quantity. *)
Definition inStock (p : Product) : bool :=
  existsb (fun s => 0 <? sz_quantity s) (p_sizes p).

(** ** Listing routes *)

(** A product document with the further fields the listing routes filter
    and sort on. *)
Record Listing := mkListing {
  l_product : Product;
  l_category : string;
  l_featured : bool;
  l_createdAt : option Z
}.

(** [a] is strictly newer than [b]; a missing date is oldest. *)
Definition newerDate (a b : option Z) : bool :=
  match a, b with
  | Some x, Some y => y <? x
  | Some _, None => true
  | None, _ => false
  end.

Fixpoint insertNewest {A} (date : A -> option Z) (x : A) (sorted : list A) : list A :=
  match sorted with
  | [] => [x]
  | y :: rest =>
      if newerDate (date y) (date x)
      then y :: insertNewest date x rest
      else x :: y :: rest
  end.

(** [.sort({ createdAt: -1 })]; equal dates keep the order of the
    collection. *)
Definition sortNewest {A} (date : A -> option Z) (docs : list A) : list A :=
  fold_right (insertNewest date) [] docs.

(** No later element is strictly newer than an earlier one. *)
Definition newestFirst {A} (date : A -> option Z) : list A -> Prop :=
  StronglySorted (fun a b => newerDate (date b) (date a) = false).

(** [Product.find(filter).sort({ createdAt: -1 }).limit(n)] *)
Definition findNewest (filter : Listing -> bool) (limit : nat) (docs : list Listing)
    : list Listing :=
  take limit (sortNewest l_createdAt (List.filter filter docs)).

(** The products of [GET /category/:category]. *)
Definition categoryProducts (category : string) (docs : list Listing) : list Listing :=
  findNewest (fun d => String.eqb (l_category d) category && inStock (l_product d))
    20 docs.

(** The products of [GET /api/featured]. *)
Definition featuredProducts (docs : list Listing) : list Listing :=
  findNewest (fun d => l_featured d && inStock (l_product d)) 8 docs.

(** The products of [GET /api/new-arrivals]; [since] is the date thirty
    days before the request. *)
Definition newArrivals (since : Z) (docs : list Listing) : list Listing :=
  findNewest (fun d => createdSince since (l_createdAt d) && inStock (l_product d))
    8 docs.

(** The featured products of the home page, which are not filtered on
    stock. *)
Definition homeFeatured (docs : list Listing) : list Listing :=
  findNewest l_featured 8 docs.

Definition defaultCategories : list string :=
  ["sneakers"; "boots"; "sandals"; "loafers"; "sports"; "formal"].

(** The categories of the home page: what [Product.distinct('category')]
    returned, or, when that is empty or the lookup failed, the default
    list. *)
Definition homeCategories (distinct : option (list string)) : list string :=
  match distinct with
  | Some (c :: cs) => c :: cs
  | _ => defaultCategories
  end.

(** ** Admin pages *)

Inductive DashboardResponse :=
| DashRedirect (path : string)
| DashRender (stats : option Stats) (error_msg : string).

(** The guard of the admin router: [!req.session.user ||
    req.session.user.role !== 'admin']; the argument is the role of the
    session's user, if any. *)
Definition sessionIsAdmin (role : option string) : bool :=
  match role with
  | Some r => String.eqb r "admin"
  | None => false
  end.

(** [GET /admin/dashboard]; [flashError] is the session's pending error
    message, [errorMessage] renders the thrown error. *)
Definition dashboard (env : Env) (errorMessage : Query -> string)
    (role : option string) (flashError : option string) (st : Store)
    : DashboardResponse :=
  if sessionIsAdmin role then
    match getDashboardStats env st with
    | Ok stats => DashRender (Some stats) (default "" flashError)
    | Err q => DashRender None ("Error loading statistics: " +:+ errorMessage q)
    end
  else DashRedirect "/admin-login".

Inductive StatsApiResponse :=
| StatsUnauthorized                       (* 401 *)
| StatsOk (stats : Stats)                 (* 200 *)
| StatsFailed (error : string).           (* 500 *)

(** [GET /admin/api/stats] *)
Definition apiStats (env : Env) (errorMessage : Query -> string)
    (role : option string) (st : Store) : StatsApiResponse :=
  if sessionIsAdmin role then
    match getDashboardStats env st with
    | Ok stats => StatsOk stats
    | Err q => StatsFailed (errorMessage q)
    end
  else StatsUnauthorized.

(** ** Authentication middleware *)

(** What the middleware reads of a request: the role of [req.user] when
    the request is authenticated, and the requested URL. *)
Record Request := mkRequest {
  req_role : option string;
  req_originalUrl : string
}.

Inductive Verdict :=
| Next
| Redirect (flash : option string) (path : string).

Definition isAuthenticated (req : Request) : bool :=
  match req_role req with Some _ => true | None => false end.

Definition isStaff (req : Request) : bool :=
  match req_role req with
  | Some r => String.eqb r "admin" || String.eqb r "moderator"
  | None => false
  end.

(** [s.includes(needle)] *)
Fixpoint includes (needle s : string) : bool :=
  String.prefix needle s
  || match s with
     | String _ rest => includes needle rest
     | EmptyString => false
     end.

Definition ensureAuthenticated (req : Request) : Verdict :=
  if isAuthenticated req then Next
  else Redirect (Some "Please log in to view this resource") "/login".

Definition ensureAdmin (req : Request) : Verdict :=
  if isAuthenticated req && isStaff req then Next
  else if String.prefix "/admin" (req_originalUrl req)
       then Redirect (Some "Admin access required") "/admin/login"
       else Redirect (Some "Admin access required") "/".

Definition forwardAuthenticated (req : Request) : Verdict :=
  if negb (isAuthenticated req) then Next
  else if isStaff req && includes "/login" (req_originalUrl req)
       then Redirect None "/admin/dashboard"
       else Redirect None "/".

(** ** Account locking *)

(** The login bookkeeping of a user document. *)
Record LoginState := mkLoginState {
  loginAttempts : Z;
  lockUntil : option Z
}.

(** [!!(this.lockUntil && this.lockUntil > Date.now())] *)
Definition isLocked (now : Z) (u : LoginState) : bool :=
  match lockUntil u with
  | Some t => now <? t
  | None => false
  end.

Definition lockTime : Z := 24 * 60 * 60 * 1000.

(** [incLoginAttempts()]: the document after the update it issues. *)
Definition incLoginAttempts (now : Z) (u : LoginState) : LoginState :=
  let expired :=
    match lockUntil u with
    | Some t => t <? now
    | None => false
    end in
  if expired then {| loginAttempts := 1; lockUntil := None |}
  else if (5 <=? loginAttempts u + 1) && negb (isLocked now u)
       then {| loginAttempts := loginAttempts u + 1;
               lockUntil := Some (now + lockTime) |}
       else {| loginAttempts := loginAttempts u + 1; lockUntil := lockUntil u |}.

(** The account after failed logins at the given times, oldest first. *)
Definition failedLogins (times : list Z) (u : LoginState) : LoginState :=
  fold_left (fun u t => incLoginAttempts t u) times u.

(** ** Admin login *)

Record Account := mkAccount {
  acc_id : string;
  acc_name : string;
  acc_email : string;
  acc_password : string;
  acc_role : string
}.

Record SessionUser := mkSessionUser {
  su_id : string;
  su_name : string;
  su_email : string;
  su_role : string
}.

(** The outcome of [POST /admin-login]: the flash message, the redirect
    and the user put in the session, if any. *)
Record LoginOutcome := mkLoginOutcome {
  lo_flash : string * string;
  lo_redirect : string;
  lo_session : option SessionUser
}.

Definition loginRefused (msg : string) : LoginOutcome :=
  {| lo_flash := ("error_msg", msg);
     lo_redirect := "/admin-login";
     lo_session := None |}.

(** [POST /admin-login]. [found] is the result of [User.findOne({ email })]
    and [isMatch] that of [bcrypt.compare(password, user.password)] for the
    user found; [None] stands for an exception. *)
Definition adminLogin (found : option (option Account))
    (isMatch : Account -> option bool) : LoginOutcome :=
  match found with
  | None => loginRefused "Login failed"
  | Some None => loginRefused "Admin not found"
  | Some (Some user) =>
      match isMatch user with
      | None => loginRefused "Login failed"
      | Some false => loginRefused "Invalid password"
      | Some true =>
          if negb (String.eqb (acc_role user) "admin")
          then loginRefused "Not an admin account"
          else {| lo_flash := ("success_msg", "Admin login successful");
                  lo_redirect := "/admin/dashboard";
                  lo_session :=
                    Some {| su_id := acc_id user;
                            su_name := acc_name user;
                            su_email := acc_email user;
                            su_role := acc_role user |} |}
      end
  end.

(** ** Sample data *)

(** An environment in which no database call fails. *)
Definition quietEnv : Env :=
  {| fails := fun _ => false;
     now := 1700000000000;
     todayStart := 1699986600000;
     toLocaleDateString := fun _ => "" |}.

(** An environment in which exactly the call [q] fails. *)
Definition failing (q : Query) : Env :=
  {| fails := fun q' => if decide (q' = q) then true else false;
     now := 1700000000000;
     todayStart := 1699986600000;
     toLocaleDateString := fun _ => "" |}.

(** The product of the design document's examples: base price 1299,
    discount price 899, three pairs of size 9. *)
Definition sampleProduct : Product :=
  {| p_id := "P";
     p_name := "Royal Runner";
     p_price := 1299;
     p_discountPrice := Some (899 : Q);
     p_sizes := [mkSizeEntry 9 3];
     p_colors := [mkColor "Black" "#000000" [ImgObj "https://img/p.jpg" "p"]];
     p_images := [];
     p_stock := None;
     p_quantity := None |}.

(** A product without a discount price, 50 pairs in stock. *)
Definition plainProduct : Product :=
  {| p_id := "Q";
     p_name := "Royal Loafer";
     p_price := 1299;
     p_discountPrice := None;
     p_sizes := [mkSizeEntry 8 20; mkSizeEntry 9 30];
     p_colors := [];
     p_images := [];
     p_stock := None;
     p_quantity := None |}.

Definition sampleStore : Store :=
  {| products := [sampleProduct; plainProduct];
     carts := ∅; orders := []; users := [] |}.

Definition sampleOrder (oid : string) (status : string) (amount : Q) : Order :=
  {| o_id := oid;
     o_orderId := None;
     o_user := "u1";
     o_items := [];
     o_totalAmount := Some amount;
     o_status := Some status;
     o_orderStatus := None;
     o_paymentStatus := Some "pending";
     o_createdAt := Some 1699990000000 |}.

(** Three orders, one of them completed, for 100. *)
Definition sampleOrderStore : Store :=
  {| products := [sampleProduct];
     carts := ∅;
     orders := [sampleOrder "64f0c0ffee000001" "completed" 100;
                sampleOrder "64f0c0ffee000002" "pending" 250;
                sampleOrder "64f0c0ffee000003" "pending" 80];
     users := [mkUser "u1" (Some 1699990000000)] |}.

(** A form body with sizes 8 and 9 selected and a quantity for size 8 only. *)
Definition sampleSizesBody : gmap string BodyVal :=
  <["sizes" := BArr ["8"; "9"]]> (<["size_8_quantity" := BStr "3"]> ∅).

(** A form body with the single size 9 selected, 5 pairs. *)
Definition sampleSingleSizeBody : gmap string BodyVal :=
  <["sizes" := BStr "9"]> (<["size_9_quantity" := BStr "5"]> ∅).

(** * Properties *)

(** ** Product creation *)

Lemma fold_add_shift {A} (f : A -> Z) (l : list A) (a : Z) :
  fold_left (fun sum x => sum + f x) l a = a + fold_left (fun sum x => sum + f x) l 0.
Proof.
  revert a. induction l as [|x l IH]; intros a; simpl.
  - lia.
  - rewrite IH. rewrite (IH (0 + f x)). lia.
Qed.

Lemma fold_add_positive {A} (f : A -> Z) (l : list A) :
  l <> [] -> Forall (fun x => 0 < f x) l ->
  0 < fold_left (fun sum x => sum + f x) l 0.
Proof.
  intros Hne Hall. destruct l as [|x l]; [congruence|]. clear Hne.
  revert x Hall. induction l as [|y l IH]; intros x Hall.
  - simpl. inversion Hall; subst. lia.
  - inversion Hall as [|? ? Hx Hrest]; subst.
    change (0 < fold_left (fun sum z => sum + f z) (y :: l) (0 + f x)).
    rewrite fold_add_shift. specialize (IH y Hrest). lia.
Qed.

Lemma sizesFromCheckboxes_positive body :
  Forall (fun s => 0 < raw_quantity s) (sizesFromCheckboxes body).
Proof.
  unfold sizesFromCheckboxes. destruct (truthy (body !! "sizes")); [|constructor].
  apply Forall_flat_map, Forall_forall. intros sizeStr _. cbv zeta.
  destruct (0 <? _) eqn:Hq; constructor; [|constructor].
  simpl. lia.
Qed.

Lemma sizesFromFields_positive body :
  Forall (fun s => 0 < raw_quantity s) (sizesFromFields body).
Proof.
  unfold sizesFromFields.
  apply Forall_flat_map, Forall_forall. intros size _. cbv zeta.
  destruct (truthy _); simpl; [|constructor].
  destruct (bodyParseInt _) as [z|]; simpl; [|constructor].
  destruct (0 <? z) eqn:Hz; constructor; [|constructor].
  simpl. lia.
Qed.

Lemma processSizes_positive body :
  Forall (fun s => 0 < raw_quantity s) (processSizes body).
Proof.
  unfold processSizes.
  pose proof (sizesFromCheckboxes_positive body) as Hc.
  pose proof (sizesFromFields_positive body) as Hf.
  destruct (sizesFromCheckboxes body); [destruct (sizesFromFields body)|]; auto.
  repeat constructor.
Qed.

Lemma processSizes_nonempty body : processSizes body <> [].
Proof.
  unfold processSizes, defaultSizes.
  destruct (sizesFromCheckboxes body); [destruct (sizesFromFields body)|]; discriminate.
Qed.

Lemma sizesFromFields_none body :
  (forall size, 6 <= size <= 12 ->
     Js.isPositive (bodyParseInt (body !! quantityKey (Some size))) = false) ->
  sizesFromFields body = [].
Proof.
  intros H. unfold sizesFromFields. cbn [flat_map].
  rewrite !H by lia. rewrite !andb_false_r. reflexivity.
Qed.

Lemma castSizes_spec sizes stored :
  castSizes sizes = Some stored ->
  map sz_quantity stored = map raw_quantity sizes.
Proof.
  unfold castSizes. revert stored. induction sizes as [|r sizes IH]; intros stored H.
  - simpl in H. injection H as <-. reflexivity.
  - rewrite mapM_Some in H. inversion H as [|e ? stored' ? He Hrest]; subst.
    apply mapM_Some in Hrest. simpl. rewrite (IH _ Hrest). f_equal.
    unfold castSize in He. destruct (raw_size r); [|discriminate].
    injection He as <-. reflexivity.
Qed.

Lemma fold_add_map {A} (f : A -> Z) (l : list A) (a : Z) :
  fold_left (fun sum x => sum + f x) l a = fold_left Z.add (map f l) a.
Proof. revert a. induction l as [|x l IH]; intros a; simpl; auto. Qed.

Lemma castSizes_positive sizes stored :
  sizes <> [] ->
  Forall (fun s => 0 < raw_quantity s) sizes ->
  castSizes sizes = Some stored ->
  stored <> [] /\ Forall (fun e => 0 < sz_quantity e) stored /\ 0 < stockOf stored.
Proof.
  intros Hne Hpos Hcast. apply castSizes_spec in Hcast.
  assert (Hs : stored <> []).
  { intros ->. destruct sizes; [congruence|discriminate]. }
  assert (Hall : Forall (fun e => 0 < sz_quantity e) stored).
  { apply (Forall_map sz_quantity (fun q => 0 < q)). rewrite Hcast.
    apply (Forall_map raw_quantity (fun q => 0 < q)). exact Hpos. }
  split; [exact Hs|]. split; [exact Hall|].
  unfold stockOf. apply fold_add_positive; assumption.
Qed.

(** C10. Without selected sizes and without a positive quantity in any of
    the fields [size_6_quantity] .. [size_12_quantity], the sizes of the
    created product are exactly the default entry of size 9 with quantity
    10. For every request the list is non-empty, each entry has a positive
    quantity and the total stock is positive, both as the route builds the
    list and as the product stores it. *)
Theorem processSizes_default_and_positive (body : gmap string BodyVal) :
  (truthy (body !! "sizes") = false ->
   (forall size, 6 <= size <= 12 ->
      Js.isPositive (bodyParseInt (body !! quantityKey (Some size))) = false) ->
   processSizes body = [mkRawSize (Some 9) 10]
   /\ castSizes (processSizes body) = Some [mkSizeEntry 9 10])
  /\ processSizes body <> []
  /\ Forall (fun s => 0 < raw_quantity s) (processSizes body)
  /\ 0 < rawTotalStock (processSizes body)
  /\ (forall stored, castSizes (processSizes body) = Some stored ->
        stored <> []
        /\ Forall (fun e => 0 < sz_quantity e) stored
        /\ 0 < stockOf stored).
Proof.
  pose proof (processSizes_nonempty body) as Hne.
  pose proof (processSizes_positive body) as Hpos.
  split; [|split; [exact Hne|split; [exact Hpos|split]]].
  - intros Hsel Hfields.
    assert (Hd : processSizes body = [mkRawSize (Some 9) 10]).
    { unfold processSizes, sizesFromCheckboxes. rewrite Hsel.
      rewrite (sizesFromFields_none body Hfields). reflexivity. }
    rewrite Hd. split; reflexivity.
  - unfold rawTotalStock. apply fold_add_positive; assumption.
  - intros stored. apply castSizes_positive; assumption.
Qed.

Lemma processSizes_default_and_positive_witness :
  processSizes ∅ = [mkRawSize (Some 9) 10]
  /\ castSizes (processSizes ∅) = Some [mkSizeEntry 9 10].
Proof.
  apply (proj1 (processSizes_default_and_positive ∅)).
  - reflexivity.
  - intros size _. reflexivity.
Defined.

Example processSizes_checkboxes :
  processSizes (<["sizes" := BArr ["8"; "9"]]>
                  (<["size_8_quantity" := BStr "3"]>
                     (<["size_9_quantity" := BStr "0"]> ∅)))
  = [mkRawSize (Some 8) 3].
Proof. vm_compute. reflexivity. Qed.

Example processSizes_fields :
  processSizes (<["size_7_quantity" := BStr "4"]> (<["size_13_quantity" := BStr "5"]> ∅))
  = [mkRawSize (Some 7) 4].
Proof. vm_compute. reflexivity. Qed.

(** ** Add to cart *)

Lemma findById_id pid ps p : findById pid ps = Some p -> p_id p = pid.
Proof.
  unfold findById. intros H. apply find_some in H as [_ H].
  apply String.eqb_eq in H. exact H.
Qed.

Lemma bumpFirst_none pid size color n items :
  (forall item, In item items -> sameLine pid size color item = false) ->
  bumpFirst pid size color n items = None.
Proof.
  induction items as [|x items IH]; intros H; simpl; [reflexivity|].
  rewrite (H x) by (left; reflexivity).
  rewrite IH; [reflexivity|]. intros item Hin. apply H. right. exact Hin.
Qed.




(** The cart an add leaves behind when the product exists and no database
    call fails. *)
Lemma addItem_success env user pid p quantity size color st :
  (forall q, fails env q = false) ->
  findById pid (products st) = Some p ->
  let items' :=
    mergeItem p (default 1 quantity) size color (default [] (carts st !! user)) in
  addItem env user pid quantity size color st
  = ({| products := products st;
        carts := <[user := items']> (carts st);
        orders := orders st;
        users := users st |},
     AddSuccess items' (cartCount items')).
Proof.
  intros Hq Hp. unfold addItem, await. rewrite !Hq, Hp. reflexivity.
Qed.


Lemma bumpFirstRaw_stored_form pid size color n items :
  bumpFirstRaw pid (JsNumber size) (JsString color) n items
  = bumpFirst pid size color n items.
Proof.
  induction items as [|x items IH]; simpl; [reflexivity|].
  rewrite IH. reflexivity.
Qed.

(** A size sent as a string is strictly equal to no stored size: the
    lookup of an existing line finds nothing. *)
Lemma bumpFirstRaw_string_size pid s color n items :
  bumpFirstRaw pid (JsString s) color n items = None.
Proof.
  induction items as [|x items IH]; simpl; [reflexivity|].
  unfold sameLineRaw. simpl. rewrite andb_false_r. simpl. rewrite IH. reflexivity.
Qed.

(** On a body that sends the size as a number and the colour as a string
    the route is [addItem]. *)
Lemma addItemRaw_stored_form env user pid quantity q size color st :
  requestedQuantity quantity = Some q ->
  addItemRaw env user pid quantity (JsNumber size) (JsString color) st
  = addItem env user pid (Some q) size color st.
Proof.
  intros Hq. unfold addItemRaw, addItem, mergeItemRaw, mergeItem. rewrite Hq.
  destruct (await env QProductFindById (findById pid (products st))) as [[p|]|];
    try reflexivity.
  destruct (await env QCartFindOne (carts st !! user)) as [found|]; try reflexivity.
  rewrite bumpFirstRaw_stored_form. simpl.
  destruct (bumpFirst (p_id p) size color q (default [] found)); reflexivity.
Qed.




Lemma sameLine_key pid size color item :
  sameLine pid size color item = true <-> lineKey item = (pid, size, color).
Proof.
  unfold sameLine, lineKey. rewrite !andb_true_iff, String.eqb_eq, Z.eqb_eq,
    String.eqb_eq.
  split; [intros [[-> ->] ->]; reflexivity|intros [= -> -> ->]; auto].
Qed.

Lemma bumpFirst_keys pid size color n items items' :
  bumpFirst pid size color n items = Some items' ->
  map lineKey items' = map lineKey items.
Proof.
  revert items'. induction items as [|x items IH]; intros items' H; simpl in H;
    [discriminate|].
  destruct (sameLine pid size color x).
  - injection H as <-. reflexivity.
  - destruct (bumpFirst pid size color n items) as [r|]; [|discriminate].
    injection H as <-. simpl. rewrite (IH r eq_refl). reflexivity.
Qed.

Lemma bumpFirst_none_inv pid size color n items :
  bumpFirst pid size color n items = None ->
  forall item, In item items -> sameLine pid size color item = false.
Proof.
  induction items as [|x items IH]; intros H item Hin; [destruct Hin|].
  simpl in H. destruct (sameLine pid size color x) eqn:E; [discriminate|].
  destruct (bumpFirst pid size color n items); [discriminate|].
  destruct Hin as [<- | Hin]; [exact E|apply IH; [reflexivity|exact Hin]].
Qed.

(** A cart in which no two lines share a key stays so under the
    merge-or-append step, whatever is added. *)
Lemma mergeItem_keeps_keys_unique p quantity size color items :
  NoDup (map lineKey items) ->
  NoDup (map lineKey (mergeItem p quantity size color items)).
Proof.
  intros Hnd. unfold mergeItem.
  destruct (bumpFirst (p_id p) size color quantity items) as [items'|] eqn:E.
  - rewrite (bumpFirst_keys _ _ _ _ _ _ E). exact Hnd.
  - rewrite map_app. simpl. apply NoDup_app. split; [exact Hnd|].
    split; [|apply NoDup_singleton].
    intros k Hk Hk'. apply list_elem_of_singleton in Hk'. subst k.
    apply list_elem_of_In, in_map_iff in Hk as (item & Hkey & Hin).
    apply (proj2 (sameLine_key (p_id p) size color item)) in Hkey.
    rewrite (bumpFirst_none_inv _ _ _ _ _ E item Hin) in Hkey. discriminate.
Qed.

(** ** The price snapshot of a cart line *)

(** C4, as stated, fails: for base price 1299 and discount price 899 the
    unit price captured in the new line is the base price 1299, while
    [effectivePrice] is 899. Nor is the other captured field the effective
    price: for a product without discount price it is absent. *)
Lemma addItem_unit_price_is_base_price :
  exists line line',
    snd (addItem quietEnv "u1" "P" (Some 2) 9 "Black" sampleStore)
      = AddSuccess [line] 2
    /\ item_price line = 1299%Q
    /\ effectivePrice sampleProduct = 899%Q
    /\ ~ (item_price line == effectivePrice sampleProduct)%Q
    /\ snd (addItem quietEnv "u1" "Q" None 9 "Brown" sampleStore)
       = AddSuccess [line'] 1
    /\ item_discountedPrice line' = None
    /\ effectivePrice plainProduct = 1299%Q.
Proof.
  do 2 eexists. split; [reflexivity|]. split; [reflexivity|]. split; [reflexivity|].
  split; [simpl; intros H; discriminate H|].
  split; [reflexivity|]. split; reflexivity.
Qed.

(** C4, amended. The line appended for a key not yet in the cart copies
    the product's base price as its unit price and the product's discount
    price, present or absent, as its discounted price; the price
    [effectivePrice] selects from the two snapshotted fields is
    [effectivePrice] of the product. *)
Theorem addItem_snapshots_both_prices
    env user pid p quantity size color st :
  (forall q, fails env q = false) ->
  findById pid (products st) = Some p ->
  let items := default [] (carts st !! user) in
  (forall item, In item items -> sameLine pid size color item = false) ->
  exists line,
    carts (fst (addItem env user pid quantity size color st)) !! user
      = Some (items ++ [line])
    /\ item_price line = p_price p
    /\ item_discountedPrice line = p_discountPrice p
    /\ effectivePriceOf (item_price line) (item_discountedPrice line)
       = effectivePrice p.
Proof.
  intros Hq Hp items Hfresh.
  exists (newItem p (default 1 quantity) size color).
  split; [|repeat split].
  rewrite (addItem_success env user pid p) by assumption. simpl.
  rewrite lookup_insert_eq. unfold mergeItem.
  rewrite (findById_id _ _ _ Hp), bumpFirst_none by exact Hfresh. reflexivity.
Qed.

Lemma addItem_snapshots_both_prices_witness :
  exists line,
    carts (fst (addItem quietEnv "u1" "P" None 9 "Black" sampleStore)) !! "u1"
      = Some ([] ++ [line])
    /\ item_price line = p_price sampleProduct
    /\ item_discountedPrice line = p_discountPrice sampleProduct
    /\ effectivePriceOf (item_price line) (item_discountedPrice line)
       = effectivePrice sampleProduct.
Proof.
  apply (addItem_snapshots_both_prices quietEnv "u1" "P" sampleProduct None 9 "Black"
           sampleStore).
  - intros q. reflexivity.
  - reflexivity.
  - intros item [].
Defined.

Example effectivePrice_discounted : effectivePrice sampleProduct = 899%Q.
Proof. reflexivity. Qed.

Example effectivePrice_no_discount : effectivePrice plainProduct = 1299%Q.
Proof. reflexivity. Qed.

(** ** Cart count *)

Lemma cartCount_sum items :
  cartCount items = fold_right Z.add 0 (map item_quantity items).
Proof.
  unfold cartCount. rewrite fold_add_map.
  apply (fold_symmetric Z.add Z.add_assoc 0). intros y. lia.
Qed.

(** C8. For a user with a cart the count is the sum of the quantities of
    the cart's lines; for a user without a cart, and for a visitor, it is
    0. The route answers with a number on every path: a failing cart
    lookup is answered with 0 as well. *)
Theorem count_sum_or_zero env st :
  (forall user items,
     fails env QCartFindOne = false ->
     carts st !! user = Some items ->
     count env (Some user) st = fold_right Z.add 0 (map item_quantity items))
  /\ (forall user, carts st !! user = None -> count env (Some user) st = 0)
  /\ count env None st = 0
  /\ (fails env QCartFindOne = true -> forall user, count env user st = 0).
Proof.
  unfold count, await. repeat split.
  - intros user items Hf Hc. rewrite Hf, Hc. apply cartCount_sum.
  - intros user Hc. rewrite Hc. destruct (fails env QCartFindOne); reflexivity.
  - intros Hf [user|]; [rewrite Hf|]; reflexivity.
Qed.

Lemma count_sum_or_zero_witness :
  count quietEnv (Some "u1")
    (fst (addItem quietEnv "u1" "P" (Some 2) 9 "Black" sampleStore)) = 2
  /\ count quietEnv (Some "u2") sampleStore = 0
  /\ count (failing QCartFindOne) (Some "u1") sampleStore = 0.
Proof.
  pose proof (count_sum_or_zero quietEnv
                (fst (addItem quietEnv "u1" "P" (Some 2) 9 "Black" sampleStore)))
    as [Hsum _].
  pose proof (count_sum_or_zero quietEnv sampleStore) as [_ [Hnone _]].
  pose proof (count_sum_or_zero (failing QCartFindOne) sampleStore) as [_ [_ [_ Hfail]]].
  split; [|split].
  - apply (Hsum "u1" [newItem sampleProduct 2 9 "Black"]); reflexivity.
  - apply Hnone. reflexivity.
  - apply Hfail. reflexivity.
Defined.

(** ** Dashboard statistics *)

(** The result of the aggregation when none of the calls under
    [Promise.all] fails. *)
Lemma getDashboardStats_ok env st :
  (forall q, In q promiseAllQueries -> fails env q = false) ->
  exists stats,
    getDashboardStats env st = Ok stats
    /\ totalOrders stats = countDocuments (fun _ => true) (orders st)
    /\ totalRevenue stats = computeRevenue env st
    /\ avgOrderValue stats
       = computeAvgOrderValue (totalOrders stats) (totalRevenue stats)
    /\ lowStockItems stats = countDocuments isLowStock (products st).
Proof.
  intros H. unfold getDashboardStats, await.
  rewrite !H by (simpl; tauto).
  eexists. split; [reflexivity|]. repeat split.
Qed.

Lemma getDashboardStats_inv env st stats :
  getDashboardStats env st = Ok stats ->
  totalOrders stats = countDocuments (fun _ => true) (orders st)
  /\ totalRevenue stats = computeRevenue env st
  /\ avgOrderValue stats
     = computeAvgOrderValue (totalOrders stats) (totalRevenue stats)
  /\ lowStockItems stats = countDocuments isLowStock (products st).
Proof.
  unfold getDashboardStats, await.
  repeat match goal with
         | |- context [fails env ?q] => destruct (fails env q)
         end; simpl; try discriminate.
  intros H. injection H as <-. repeat split.
Qed.

Lemma isLowStock_no_fields ps :
  Forall (fun p => p_stock p = None /\ p_quantity p = None) ps ->
  countDocuments isLowStock ps = 0.
Proof.
  unfold countDocuments. induction 1 as [|p ps [Hs Hq] _ IH]; [reflexivity|].
  simpl. unfold isLowStock at 1. rewrite Hs, Hq. simpl. exact IH.
Qed.

(** C5, on the code. A catalog of two products, one with 3 pairs in stock
    and one with 50, neither with a top-level [stock] or [quantity] field
    (no route writes one): the dashboard reports no low-stock item, whereas
    one product has a total stock between 1 and 10. *)
Theorem lowStockItems_misses_size_stock :
  exists stats,
    getDashboardStats quietEnv sampleStore = Ok stats
    /\ totalProducts stats = 2
    /\ lowStockItems stats = 0
    /\ map totalStock (products sampleStore) = [3; 50]
    /\ lowStockByTotal 10 (products sampleStore) = 1.
Proof. eexists. repeat split. Qed.

(** Whatever the sizes hold, products without the two top-level fields are
    never counted. *)
Lemma lowStockItems_zero_without_fields env st stats :
  Forall (fun p => p_stock p = None /\ p_quantity p = None) (products st) ->
  getDashboardStats env st = Ok stats ->
  lowStockItems stats = 0.
Proof.
  intros Hf H. apply getDashboardStats_inv in H as (_ & _ & _ & ->).
  apply isLowStock_no_fields. exact Hf.
Qed.

Lemma mathRound_nearest (x : Q) :
  (x - (1 # 2) < inject_Z (mathRound x))%Q /\ (inject_Z (mathRound x) <= x + (1 # 2))%Q.
Proof.
  unfold mathRound.
  pose proof (Qfloor_le (x + (1 # 2))) as Hle.
  pose proof (Qlt_floor (x + (1 # 2))) as Hlt.
  rewrite inject_Z_plus in Hlt. change (inject_Z 1) with 1%Q in Hlt.
  split; lra.
Qed.

Lemma Qpositive_true (x : Q) : (0 < x)%Q -> Qpositive x = true.
Proof.
  intros H. unfold Qpositive. destruct (Qle_bool x 0) eqn:E; [|reflexivity].
  apply Qle_bool_iff in E. lra.
Qed.

Lemma Qpositive_false (x : Q) : (x <= 0)%Q -> Qpositive x = false.
Proof.
  intros H. unfold Qpositive. apply Qle_bool_iff in H. rewrite H. reflexivity.
Qed.

(** C6, as stated, fails: with three orders and a revenue of 100 the
    dashboard shows an average of 33, which is not 100 / 3. *)
Lemma avgOrderValue_not_exact_quotient :
  exists stats,
    getDashboardStats quietEnv sampleOrderStore = Ok stats
    /\ totalOrders stats = 3
    /\ totalRevenue stats = 100%Q
    /\ avgOrderValue stats = 33
    /\ ~ (inject_Z (avgOrderValue stats)
          == totalRevenue stats / inject_Z (totalOrders stats))%Q.
Proof.
  eexists. split; [reflexivity|]. repeat split.
  intros H. vm_compute in H. discriminate H.
Qed.

(** C6, amended. When there are orders and the revenue is positive,
    [avgOrderValue] is the revenue divided by the number of orders, rounded
    to the nearest integer; otherwise it is 0. With no order at all the
    order count, the revenue and the average are all 0. *)
Theorem avgOrderValue_rounded_quotient env st stats :
  getDashboardStats env st = Ok stats ->
  let n := totalOrders stats in
  let revenue := totalRevenue stats in
  let average := avgOrderValue stats in
  (0 < n -> (0 < revenue)%Q ->
     average = mathRound (revenue / inject_Z n)
     /\ (revenue / inject_Z n - (1 # 2) < inject_Z average)%Q
     /\ (inject_Z average <= revenue / inject_Z n + (1 # 2))%Q)
  /\ (n <= 0 \/ (revenue <= 0)%Q -> average = 0)
  /\ (orders st = [] -> n = 0 /\ revenue = 0%Q /\ average = 0).
Proof.
  intros H n revenue average.
  apply getDashboardStats_inv in H as (Hn & Hr & Ha & _).
  fold n in Hn, Ha. fold revenue in Hr, Ha. fold average in Ha.
  unfold computeAvgOrderValue in Ha.
  split; [|split].
  - intros Hpos Hrev.
    assert (E1 : (0 <? n) = true) by (apply Z.ltb_lt; exact Hpos).
    rewrite E1, (Qpositive_true _ Hrev) in Ha. simpl in Ha.
    split; [exact Ha|]. rewrite Ha. apply mathRound_nearest.
  - intros [Hz | Hz].
    + assert (E1 : (0 <? n) = false) by (apply Z.ltb_ge; exact Hz).
      rewrite E1 in Ha. exact Ha.
    + rewrite (Qpositive_false _ Hz), andb_false_r in Ha. exact Ha.
  - intros Ho.
    assert (Hn0 : n = 0) by (rewrite Hn, Ho; reflexivity).
    assert (Hr0 : revenue = 0%Q).
    { rewrite Hr. unfold computeRevenue, await. rewrite Ho.
      destruct (fails env QRevenue); reflexivity. }
    repeat split; [exact Hn0|exact Hr0|].
    rewrite Ha, Hn0. reflexivity.
Qed.

Lemma avgOrderValue_rounded_quotient_witness :
  exists stats,
    getDashboardStats quietEnv sampleOrderStore = Ok stats
    /\ avgOrderValue stats
       = mathRound (totalRevenue stats / inject_Z (totalOrders stats)).
Proof.
  eexists. split; [reflexivity|].
  refine (proj1 (proj1 (avgOrderValue_rounded_quotient quietEnv sampleOrderStore _
                          eq_refl) _ _)).
  - reflexivity.
  - reflexivity.
Defined.

(** C7, as stated, fails: when the low-stock count cannot be computed the
    aggregation returns no statistics at all. *)
Lemma getDashboardStats_fails_as_a_whole :
  getDashboardStats (failing QLowStock) sampleOrderStore = Err QLowStock
  /\ ~ exists stats, getDashboardStats (failing QLowStock) sampleOrderStore = Ok stats.
Proof.
  split; [reflexivity|]. intros [stats H]. discriminate H.
Qed.

(** C7, amended. Only the revenue aggregation is tolerated: when it fails
    and the eight calls under [Promise.all] succeed, the statistics are
    returned with [totalRevenue] and [avgOrderValue] at 0 and every other
    field as in the run where the aggregation succeeds. When one of the
    eight calls fails, the aggregation fails as a whole. *)
Theorem getDashboardStats_tolerates_revenue_only env st :
  ((forall q, In q promiseAllQueries -> fails env q = false) ->
   exists stats stats',
     getDashboardStats env st = Ok stats
     /\ getDashboardStats (revenueSucceeds env) st = Ok stats'
     /\ (fails env QRevenue = true -> stats = withRevenue 0 0 stats'))
  /\ (forall q, In q promiseAllQueries -> fails env q = true ->
      exists q', getDashboardStats env st = Err q').
Proof.
  split.
  - intros H. unfold getDashboardStats, await. simpl fails.
    rewrite !H by (simpl; tauto). simpl.
    do 2 eexists. split; [reflexivity|]. split; [reflexivity|].
    intros Hrev. unfold withRevenue, computeRevenue, await; simpl.
    rewrite Hrev. unfold computeAvgOrderValue.
    change (Qpositive 0) with false. rewrite andb_false_r. reflexivity.
  - intros q Hin Hq. unfold getDashboardStats, await.
    simpl in Hin.
    repeat match goal with
           | H : _ \/ _ |- _ => destruct H as [<- | H]
           | H : False |- _ => destruct H
           end;
      repeat match goal with
             | |- context [fails env ?q'] =>
                 let E := fresh "E" in destruct (fails env q') eqn:E
             end;
      simpl; try congruence; eexists; reflexivity.
Qed.

Lemma getDashboardStats_tolerates_revenue_only_witness :
  (exists stats stats',
     getDashboardStats (failing QRevenue) sampleOrderStore = Ok stats
     /\ getDashboardStats (revenueSucceeds (failing QRevenue)) sampleOrderStore
        = Ok stats'
     /\ (fails (failing QRevenue) QRevenue = true -> stats = withRevenue 0 0 stats'))
  /\ exists q', getDashboardStats (failing QUserCount) sampleOrderStore = Err q'.
Proof.
  split.
  - apply (proj1 (getDashboardStats_tolerates_revenue_only (failing QRevenue)
                    sampleOrderStore)).
    intros q Hin. simpl in Hin.
    repeat match goal with
           | H : _ \/ _ |- _ => destruct H as [<- | H]
           | H : False |- _ => destruct H
           end; reflexivity.
  - apply (proj2 (getDashboardStats_tolerates_revenue_only (failing QUserCount)
                    sampleOrderStore) QUserCount).
    + simpl. tauto.
    + reflexivity.
Defined.

(** ** The cart view *)

Lemma editProductPrices_differOnlyInPrices pid price discount s :
  differOnlyInPrices s (editProductPrices pid price discount s).
Proof.
  unfold differOnlyInPrices, editProductPrices; simpl.
  split; [|repeat split].
  induction (products s) as [|p ps IH]; simpl; [constructor|].
  destruct (String.eqb (p_id p) pid).
  - constructor; [repeat split|].
    clear IH. induction ps; constructor; [repeat split|assumption].
  - constructor; [repeat split|exact IH].
Qed.

(** C9. The cart view, totals included, is the same in any two stores that
    differ only in the price fields of their products; in particular an
    admin price edit made after the lines were added leaves the view as it
    was. *)
Theorem view_ignores_live_prices user s :
  (forall s', differOnlyInPrices s s' ->
     view user s' = view user s
     /\ view_total (view user s') = view_total (view user s))
  /\ (forall pid price discount,
        view user (editProductPrices pid price discount s) = view user s).
Proof.
  assert (H : forall s', differOnlyInPrices s s' -> view user s' = view user s).
  { intros s' (_ & Hc & _). unfold view. rewrite Hc. reflexivity. }
  split.
  - intros s' Hd. rewrite (H s' Hd). split; reflexivity.
  - intros pid price discount. apply H, editProductPrices_differOnlyInPrices.
Qed.

Lemma view_ignores_live_prices_witness :
  let s := fst (addItem quietEnv "u1" "P" (Some 2) 9 "Black" sampleStore) in
  let s' := editProductPrices "P" 1499 None s in
  view "u1" s' = view "u1" s
  /\ view_total (view "u1" s') = view_total (view "u1" s).
Proof.
  intros s s'.
  apply (proj1 (view_ignores_live_prices "u1" s) s').
  unfold differOnlyInPrices. simpl.
  split; [|split; [|split]]; try reflexivity.
  repeat constructor.
Defined.

Example view_total_after_price_edit :
  let s := fst (addItem quietEnv "u1" "P" (Some 2) 9 "Black" sampleStore) in
  let s' := editProductPrices "P" 1499 None s in
  (view_total (view "u1" s') == 2 * 899)%Q
  /\ effectivePrice sampleProduct = 899%Q
  /\ option_map effectivePrice (findById "P" (products s')) = Some 1499%Q.
Proof. split; [|split]; reflexivity. Qed.

(** ** Stock *)

Lemma find_alterFirst_same {A} (t : A -> bool) (f : A -> A) (l : list A) :
  (forall x, t (f x) = t x) ->
  find t (alterFirst t f l) = option_map f (find t l).
Proof.
  intros Hf. induction l as [|x l IH]; simpl; [reflexivity|].
  destruct (t x) eqn:E; simpl.
  - rewrite Hf, E. reflexivity.
  - rewrite E. exact IH.
Qed.

Lemma find_alterFirst_other {A} (t t' : A -> bool) (f : A -> A) (l : list A) :
  (forall x, t' (f x) = t' x) ->
  (forall x, t x = true -> t' x = false) ->
  find t' (alterFirst t f l) = find t' l.
Proof.
  intros Hf Hx. induction l as [|x l IH]; simpl; [reflexivity|].
  destruct (t x) eqn:E; simpl.
  - rewrite Hf, (Hx x E). reflexivity.
  - destruct (t' x); [reflexivity|exact IH].
Qed.


(** The stock of every (product, size) after a decrement that is within the
    available quantity. Taking a negative amount from an entry that does
    not exist is the one case left out: nothing is written there. *)
Lemma availableStock_stockAfter pid size amount ps pid' size' :
  0 <= amount \/ hasStockEntry pid size ps = true ->
  amount <= availableStock pid size ps ->
  availableStock pid' size' (stockAfter pid size amount ps)
  = availableStock pid' size' ps
    - (if String.eqb pid pid' && (size =? size') then amount else 0).
Proof.
  intros H0 Hle. unfold availableStock, hasStockEntry, stockAfter, findById in *.
  destruct (String.eqb pid pid') eqn:Ep.
  - apply String.eqb_eq in Ep. subst pid'.
    rewrite find_alterFirst_same by reflexivity.
    destruct (find (fun p => String.eqb (p_id p) pid) ps) as [p|]; simpl.
    + destruct (size =? size') eqn:Es.
      * apply Z.eqb_eq in Es. subst size'.
        rewrite find_alterFirst_same by reflexivity.
        destruct (find (hasSize size) (p_sizes p)) as [e|]; simpl;
          [lia|destruct H0 as [H0|H0]; [lia|discriminate]].
      * rewrite find_alterFirst_other; [lia|reflexivity|].
        intros e He. unfold hasSize in *. apply Z.eqb_eq in He.
        apply Z.eqb_neq. apply Z.eqb_neq in Es. lia.
    + destruct (size =? size'); [destruct H0 as [H0|H0]; [lia|discriminate]|lia].
  - rewrite find_alterFirst_other; [simpl; lia|reflexivity|].
    intros p Hp. apply String.eqb_eq in Hp. apply String.eqb_neq.
    apply String.eqb_neq in Ep. congruence.
Qed.


Lemma decrementStock_ok pid size amount ps :
  amount <= availableStock pid size ps ->
  decrementStock pid size amount ps = StockOk (stockAfter pid size amount ps).
Proof.
  intros H. unfold decrementStock. apply Z.leb_le in H. rewrite H. reflexivity.
Qed.



(** ** Checkout *)

Lemma demand_nonneg pid size items :
  Forall (fun i => 0 <= item_quantity i) items -> 0 <= demand pid size items.
Proof.
  induction 1 as [|i items Hi _ IH]; simpl; [lia|].
  destruct (onStock pid size i); lia.
Qed.

Lemma onStock_self item : onStock (item_product item) (item_size item) item = true.
Proof. unfold onStock. rewrite String.eqb_refl, Z.eqb_refl. reflexivity. Qed.

Lemma demand_covers_line items item :
  Forall (fun i => 0 <= item_quantity i) items ->
  In item items ->
  item_quantity item <= demand (item_product item) (item_size item) items.
Proof.
  induction 1 as [|i items Hi Hall IH]; intros Hin; simpl; [destruct Hin|].
  destruct Hin as [-> | Hin].
  - rewrite onStock_self.
    pose proof (demand_nonneg (item_product item) (item_size item) items Hall). lia.
  - specialize (IH Hin). destruct (onStock _ _ i); lia.
Qed.

(** Step 2 passes when the lines on each (product, size) fit the stock
    together. *)
Lemma firstShortLine_none ps items :
  Forall (fun i => 0 <= item_quantity i) items ->
  (forall item, In item items ->
     demand (item_product item) (item_size item) items
     <= availableStock (item_product item) (item_size item) ps) ->
  firstShortLine ps items = None.
Proof.
  intros Hq Hfit.
  assert (Hline : forall item, In item items ->
            item_quantity item
            <= availableStock (item_product item) (item_size item) ps).
  { intros item Hin. pose proof (demand_covers_line items item Hq Hin).
    specialize (Hfit item Hin). lia. }
  clear Hfit Hq. induction items as [|i items IH]; simpl; [reflexivity|].
  assert (E : (item_quantity i <=? availableStock (item_product i) (item_size i) ps)
              = true).
  { apply Z.leb_le, Hline. left. reflexivity. }
  rewrite E. apply IH. intros item Hin. apply Hline. right. exact Hin.
Qed.

Lemma firstShortLine_some ps items :
  Exists (fun i => availableStock (item_product i) (item_size i) ps < item_quantity i)
    items ->
  exists pid size requested available,
    firstShortLine ps items
    = Some (CheckoutInsufficientStock pid size requested available)
    /\ available < requested
    /\ available = availableStock pid size ps.
Proof.
  induction 1 as [i items Hi | i items _ IH]; simpl.
  - apply Z.leb_gt in Hi as E. rewrite E. do 4 eexists. split; [reflexivity|].
    split; [exact Hi|reflexivity].
  - destruct (item_quantity i <=? _) eqn:E; [exact IH|].
    apply Z.leb_gt in E. do 4 eexists. split; [reflexivity|].
    split; [exact E|reflexivity].
Qed.

(** Step 3 succeeds under the same condition, and takes from each
    (product, size) what the lines on it ask together. *)
Lemma decrementAll_ok items : forall ps,
  Forall (fun i => 0 <= item_quantity i) items ->
  (forall item, In item items ->
     demand (item_product item) (item_size item) items
     <= availableStock (item_product item) (item_size item) ps) ->
  exists ps',
    decrementAll items ps = inr ps'
    /\ forall pid size,
         availableStock pid size ps' = availableStock pid size ps - demand pid size items.
Proof.
  induction items as [|i items IH]; intros ps Hq Hfit.
  - exists ps. split; [reflexivity|]. intros. simpl. lia.
  - inversion Hq as [|? ? Hi Hrest]; subst.
    assert (Hle : item_quantity i
                  <= availableStock (item_product i) (item_size i) ps).
    { pose proof (demand_covers_line (i :: items) i Hq (or_introl eq_refl)).
      specialize (Hfit i (or_introl eq_refl)). lia. }
    simpl. rewrite (decrementStock_ok _ _ _ _ Hle).
    set (ps1 := stockAfter (item_product i) (item_size i) (item_quantity i) ps).
    assert (Hps1 : forall pid size,
              availableStock pid size ps1
              = availableStock pid size ps
                - (if onStock pid size i then item_quantity i else 0)).
    { intros pid size. unfold ps1.
      rewrite availableStock_stockAfter by auto. reflexivity. }
    destruct (IH ps1 Hrest) as (ps' & Hdec & Hstock).
    { intros item Hin. rewrite Hps1.
      specialize (Hfit item (or_intror Hin)). simpl in Hfit.
      destruct (onStock (item_product item) (item_size item) i); lia. }
    exists ps'. split; [exact Hdec|].
    intros pid size. rewrite Hstock, Hps1. simpl.
    destruct (onStock pid size i); lia.
Qed.


(** A checkout that fails leaves the store as it was. *)
Lemma checkout_failure_unchanged oid createdAt user st st' e :
  checkout oid createdAt user st = (st', inl e) -> st' = st.
Proof.
  unfold checkout.
  destruct (default [] (carts st !! user)) as [|i items]; [congruence|].
  destruct (firstShortLine _ _); [congruence|].
  destruct (decrementAll _ _); [congruence|discriminate].
Qed.





(** C1, as stated, fails. Three pairs of size 9 are in stock and the cart
    holds two lines on that size, 2 Black and 2 White: each line asks no
    more than the stock, yet the checkout cannot take 4 from 3 and fails,
    leaving the store as it was. *)
Lemma checkout_two_colours_one_size :
  let st :=
    fst (addItem quietEnv "u1" "P" (Some 2) 9 "White"
           (fst (addItem quietEnv "u1" "P" (Some 2) 9 "Black" sampleStore))) in
  exists items,
    carts st !! "u1" = Some items
    /\ length items = 2%nat
    /\ Forall (fun i => item_quantity i
                        <= availableStock (item_product i) (item_size i) (products st))
         items
    /\ checkout "o1" 0 "u1" st = (st, inl (CheckoutInsufficientStock "P" 9 2 1)).
Proof.
  eexists. split; [reflexivity|]. split; [reflexivity|].
  split; [repeat constructor; discriminate|reflexivity].
Qed.

(** C1, amended. For a non-empty cart with non-negative quantities: if, for
    every line, the lines on its (product, size), of whatever colour, ask
    together for no more than the current stock, the checkout succeeds,
    takes from every (product, size) exactly what the lines on it ask
    together, appends exactly one order and empties the cart, other carts
    being untouched. If some line asks for more than the current stock, the
    checkout fails with [InsufficientStock] for a line that does and the
    store, stock and cart included, is unchanged. *)
Theorem checkout_all_or_nothing oid createdAt user st items :
  carts st !! user = Some items ->
  items <> [] ->
  (Forall (fun i => 0 <= item_quantity i) items ->
   (forall item, In item items ->
      demand (item_product item) (item_size item) items
      <= availableStock (item_product item) (item_size item) (products st)) ->
   exists order st',
     checkout oid createdAt user st = (st', inr order)
     /\ (forall pid size,
           availableStock pid size (products st')
           = availableStock pid size (products st) - demand pid size items)
     /\ orders st' = orders st ++ [order]
     /\ o_user order = user
     /\ o_items order = map orderLine items
     /\ carts st' !! user = Some []
     /\ (forall u, u <> user -> carts st' !! u = carts st !! u))
  /\ (Exists (fun i => availableStock (item_product i) (item_size i) (products st)
                       < item_quantity i) items ->
      exists pid size requested available,
        checkout oid createdAt user st
        = (st, inl (CheckoutInsufficientStock pid size requested available))
        /\ available < requested
        /\ available = availableStock pid size (products st)).
Proof.
  intros Hcart Hne. unfold checkout. rewrite Hcart.
  destruct items as [|i0 items0]; [congruence|].
  change (default [] (Some (i0 :: items0))) with (i0 :: items0). cbv iota.
  set (items := i0 :: items0) in *.
  split.
  - intros Hq Hfit.
    rewrite (firstShortLine_none _ _ Hq Hfit).
    destruct (decrementAll_ok items (products st) Hq Hfit) as (ps' & Hdec & Hstock).
    rewrite Hdec. do 2 eexists. split; [reflexivity|]. simpl.
    split; [exact Hstock|]. split; [reflexivity|]. split; [reflexivity|].
    split; [reflexivity|]. split; [apply lookup_insert_eq|].
    intros u Hu. apply lookup_insert_ne. congruence.
  - intros Hshort.
    destruct (firstShortLine_some _ _ Hshort) as (pid & size & r & a & -> & Hlt & Ha).
    exists pid, size, r, a. split; [reflexivity|]. split; assumption.
Qed.

Lemma checkout_all_or_nothing_witness :
  let st := fst (addItem quietEnv "u1" "P" (Some 2) 9 "Black" sampleStore) in
  let items := [newItem sampleProduct 2 9 "Black"] in
  exists order st',
    checkout "o1" 0 "u1" st = (st', inr order)
    /\ (forall pid size,
          availableStock pid size (products st')
          = availableStock pid size (products st) - demand pid size items)
    /\ orders st' = orders st ++ [order]
    /\ o_user order = "u1"
    /\ o_items order = map orderLine items
    /\ carts st' !! "u1" = Some []
    /\ (forall u, u <> "u1" -> carts st' !! u = carts st !! u).
Proof.
  intros st items.
  apply (proj1 (checkout_all_or_nothing "o1" 0 "u1" st items eq_refl
                  ltac:(discriminate))).
  - repeat constructor. discriminate.
  - intros item [<- | []]. discriminate.
Defined.

(** The example of the design document: 3 pairs in stock, 2 + 2 pairs of
    one variant in the cart; the checkout reports 4 requested against 3
    available and changes nothing. *)
Example checkout_example_insufficient :
  let st :=
    fst (addItem quietEnv "u1" "P" (Some 2) 9 "Black"
           (fst (addItem quietEnv "u1" "P" (Some 2) 9 "Black" sampleStore))) in
  option_map (map item_quantity) (carts st !! "u1") = Some [4]
  /\ checkout "o1" 0 "u1" st = (st, inl (CheckoutInsufficientStock "P" 9 4 3))
  /\ availableStock "P" 9 (products st) = 3.
Proof. repeat split. Qed.

Example checkout_example_success :
  let st := fst (addItem quietEnv "u1" "P" (Some 2) 9 "Black" sampleStore) in
  let st' := fst (checkout "o1" 0 "u1" st) in
  availableStock "P" 9 (products st') = 1
  /\ carts st' !! "u1" = Some []
  /\ length (orders st') = 1%nat.
Proof. repeat split. Qed.

(** * Further properties of the routes *)

(** ** Colours and images of a new product *)

Lemma slice_window {A} (start width : nat) (l : list A) :
  slice start (Nat.min (start + width) (length l)) l = take width (drop start l).
Proof.
  unfold slice. destruct (Nat.le_gt_cases start (length l)) as [Hle | Hgt].
  - replace (Nat.min (start + width) (length l) - start)%nat
      with (Nat.min width (length l - start)) by lia.
    rewrite <- take_take. f_equal. apply take_ge. rewrite length_drop. lia.
  - rewrite drop_ge by lia. rewrite !take_nil. reflexivity.
Qed.

Lemma distributeFrom_images width images colors : forall index,
  concat (map rc_images (distributeFrom index width images colors))
  = take (length colors * width) (drop (index * width) images).
Proof.
  induction colors as [|c colors IH]; intros index; [reflexivity|].
  cbn [distributeFrom map concat rc_images withImages length].
  rewrite slice_window, IH.
  replace (S index * width)%nat with (index * width + width)%nat by lia.
  rewrite <- drop_drop, take_take_drop. f_equal.
Qed.

Lemma ceilDiv_covers (n k : nat) : (0 < k)%nat -> (n <= k * ceilDiv n k)%nat.
Proof.
  intros Hk. unfold ceilDiv.
  pose proof (Nat.div_mod_eq n k) as Hdm.
  pose proof (Nat.mod_upper_bound n k) as Hub.
  destruct (Nat.eqb_spec (n mod k) 0); nia.
Qed.

Lemma distributeFrom_names width images colors : forall index,
  map rc_name (distributeFrom index width images colors) = map rc_name colors.
Proof.
  induction colors as [|c colors IH]; intros index; [reflexivity|].
  simpl. rewrite IH. reflexivity.
Qed.

Lemma distributeFrom_share width images colors : forall index,
  Forall (fun c => (length (rc_images c) <= width)%nat)
    (distributeFrom index width images colors).
Proof.
  induction colors as [|c colors IH]; intros index; simpl; constructor.
  - simpl. rewrite slice_window, length_take. lia.
  - apply IH.
Qed.

(** X1. The colours of a new product share out the uploaded images without
    loss or repetition: read colour by colour, the images are exactly the
    uploaded files, in the order of upload. *)
Theorem createColors_partitions_images body files :
  concat (map rc_images (createColors body files)) = map cloudinaryImage files.
Proof.
  unfold createColors, assignImages.
  destruct (processColors body) as [|c colors] eqn:E.
  - simpl. apply app_nil_r.
  - rewrite distributeFrom_images. rewrite drop_0. apply take_ge.
    apply ceilDiv_covers. simpl. lia.
Qed.

(** X2. A new product always has a colour: the colours are the selected
    names that are not blank, in the order sent, or the single colour
    "Default" when there is none; and no colour holds more than the number
    of images divided by the number of colours, rounded up. *)
Theorem createColors_names_and_shares body files :
  let selected :=
    if truthy (body !! "colors")
    then List.filter nonBlank (asArray (body !! "colors")) else [] in
  createColors body files <> []
  /\ map rc_name (createColors body files)
     = match selected with [] => ["Default"] | _ => selected end
  /\ (selected <> [] ->
      Forall (fun c => (length (rc_images c)
                        <= ceilDiv (length files) (length selected))%nat)
        (createColors body files)).
Proof.
  intros selected.
  assert (Hnames : map rc_name (processColors body) = selected).
  { unfold processColors, selected. destruct (truthy (body !! "colors")); [|reflexivity].
    rewrite map_map. simpl. apply map_id. }
  assert (Hlen : length (processColors body) = length selected).
  { rewrite <- Hnames, length_map. reflexivity. }
  unfold createColors, assignImages.
  destruct (processColors body) as [|c colors] eqn:E.
  - simpl in Hnames. rewrite <- Hnames. repeat split; [discriminate|congruence].
  - rewrite distributeFrom_names, Hnames.
    destruct selected as [|n ns] eqn:Es; [discriminate|].
    split; [simpl; discriminate|]. split; [reflexivity|].
    intros _. rewrite length_map, <- Hlen. apply distributeFrom_share.
Qed.

Lemma createColors_names_and_shares_witness :
  Forall (fun c => (length (rc_images c) <= 2)%nat)
    (createColors (<["colors" := BArr ["Black"; " "; "White"]]> ∅)
       [mkFile "a.jpg" "a"; mkFile "b.jpg" "b"; mkFile "c.jpg" "c"]).
Proof.
  generalize (proj2 (proj2 (createColors_names_and_shares
                              (<["colors" := BArr ["Black"; " "; "White"]]> ∅)
                              [mkFile "a.jpg" "a"; mkFile "b.jpg" "b";
                               mkFile "c.jpg" "c"]))).
  vm_compute. intros H. apply H. discriminate.
Defined.

(** With five images for four colours the shares are 2, 2, 1 and 0: the
    last colour is stored without an image. *)
Example createColors_last_colour_empty :
  map (fun c => length (rc_images c))
    (createColors (<["colors" := BArr ["Black"; "White"; "Red"; "Blue"]]> ∅)
       [mkFile "1" "1"; mkFile "2" "2"; mkFile "3" "3"; mkFile "4" "4"; mkFile "5" "5"])
  = [2; 2; 1; 0]%nat.
Proof. vm_compute. reflexivity. Qed.

(** ** Sizes, colours and images of an edited product *)

(** X3. The edit route replaces the sizes only when the field is an array.
    It then stores one entry per selected size, in the order sent and with
    nothing dropped: an entry whose quantity field is missing or empty gets
    quantity 0. With a single selected size, or none, the sizes are left as
    they are, where the creation route would take the single size. *)
Theorem editSizes_array_only body :
  (forall l, body !! "sizes" = Some (BArr l) ->
     exists sizes,
       editSizes body = Some sizes
       /\ map es_size sizes = map Js.parseInt l
       /\ forall i size, l !! i = Some size ->
            truthy (body !! ("size_" +:+ size +:+ "_quantity")) = false ->
            es_quantity <$> sizes !! i = Some (Some 0))
  /\ (forall s, body !! "sizes" = Some (BStr s) ->
        editSizes body = None
        /\ (s <> "" -> 0 < Js.orZero (bodyParseInt (body !! quantityKey (Js.parseInt s))) ->
            exists e, sizesFromCheckboxes body = [e] /\ raw_size e = Js.parseInt s))
  /\ (body !! "sizes" = None -> editSizes body = None).
Proof.
  unfold editSizes. split; [|split].
  - intros l ->. eexists. split; [reflexivity|]. split.
    + rewrite map_map. reflexivity.
    + intros i size Hi Hq. rewrite list_lookup_fmap, Hi. simpl.
      unfold parseIntOrZero. rewrite Hq. reflexivity.
  - intros s Hs. rewrite Hs. split; [reflexivity|].
    intros Hne Hq. unfold sizesFromCheckboxes. rewrite Hs. simpl.
    destruct (String.eqb_spec s ""); [congruence|]. simpl.
    apply Z.ltb_lt in Hq. rewrite Hq. eexists. split; reflexivity.
  - intros ->. reflexivity.
Qed.

Lemma editSizes_array_only_witness :
  (exists sizes,
     editSizes sampleSizesBody = Some sizes
     /\ map es_size sizes = map Js.parseInt ["8"; "9"]
     /\ forall i size, ["8"; "9"] !! i = Some size ->
          truthy (sampleSizesBody !! ("size_" +:+ size +:+ "_quantity")) = false ->
          es_quantity <$> sizes !! i = Some (Some 0))
  /\ editSizes sampleSingleSizeBody = None
  /\ exists e, sizesFromCheckboxes sampleSingleSizeBody = [e]
               /\ raw_size e = Js.parseInt "9".
Proof.
  split; [|split].
  - apply (proj1 (editSizes_array_only sampleSizesBody) ["8"; "9"]).
    reflexivity.
  - apply (proj1 (proj2 (editSizes_array_only sampleSingleSizeBody)) "9" eq_refl).
  - apply (proj1 (proj2 (editSizes_array_only sampleSingleSizeBody)) "9" eq_refl).
    + discriminate.
    + reflexivity.
Defined.

Lemma concat_no_images (f : string -> RawColor) (l : list string) :
  (forall x, rc_images (f x) = []) ->
  concat (map rc_images (map f l)) = [].
Proof.
  intros H. induction l as [|x l IH]; simpl; [reflexivity|].
  rewrite H, IH. reflexivity.
Qed.

(** X4. Editing with a colour array discards every stored image: the
    colours are the names sent, and the images of the edited product are
    exactly the files uploaded with the edit. Without a colour array no
    stored image is lost: the images are the stored ones and the new ones,
    and the colour names are kept when there is a colour. *)
Theorem editedColors_images body files current :
  (forall l, body !! "colors" = Some (BArr l) ->
     concat (map rc_images (editedColors body files current)) = map uploadPath files
     /\ (l <> [] -> map rc_name (editedColors body files current) = l))
  /\ ((forall l, body !! "colors" <> Some (BArr l)) ->
      concat (map rc_images (editedColors body files current))
        ≡ₚ concat (map rc_images current) ++ map uploadPath files
      /\ (current <> [] ->
          map rc_name (editedColors body files current) = map rc_name current)).
Proof.
  unfold editedColors, editColors, editImages. split.
  - intros l ->.
    assert (Hnone : concat (map rc_images
                      (map (fun color => mkRawColor color (colorCode body color) []) l))
                    = []) by (apply concat_no_images; reflexivity).
    destruct files as [|f files].
    + split; [exact Hnone|]. intros _. rewrite map_map. apply map_id.
    + destruct l as [|c l];
        [split; [simpl; rewrite app_nil_r; reflexivity|congruence]|].
      split.
      * simpl in *. rewrite Hnone, !app_nil_r. reflexivity.
      * intros _. simpl. rewrite map_map. simpl. rewrite map_id. reflexivity.
  - intros Hnot.
    assert (E : match body !! "colors" with
                | Some (BArr l) =>
                    map (fun color => mkRawColor color (colorCode body color) []) l
                | _ => current
                end = current).
    { destruct (body !! "colors") as [[s|l]|] eqn:Eb; try reflexivity.
      exfalso. apply (Hnot l). reflexivity. }
    rewrite E. clear E. destruct files as [|f files].
    + split; [simpl; rewrite app_nil_r; reflexivity|reflexivity].
    + destruct current as [|c current]; [split; [simpl; rewrite app_nil_r; reflexivity|congruence]|].
      split; [|reflexivity].
      cbn [map concat rc_images withImages].
      rewrite <- !app_assoc. apply Permutation_app_head, Permutation_app_comm.
Qed.

Lemma editedColors_images_witness :
  let stored := [mkRawColor "Black" (BStr "#000000") [ImgUrl "/uploads/products/old.jpg"]] in
  concat (map rc_images
            (editedColors (<["colors" := BArr ["Black"]]> ∅) [] stored)) = []
  /\ concat (map rc_images (editedColors (<["colors" := BStr "Black"]> ∅)
                              [mkFile "tmp" "new.jpg"] stored))
     ≡ₚ [ImgUrl "/uploads/products/old.jpg"] ++ [ImgUrl "/uploads/products/new.jpg"].
Proof.
  intros stored. split.
  - apply (proj1 (editedColors_images (<["colors" := BArr ["Black"]]> ∅) [] stored)
             ["Black"]).
    reflexivity.
  - apply (proj2 (editedColors_images (<["colors" := BStr "Black"]> ∅)
                    [mkFile "tmp" "new.jpg"] stored)).
    intros l. discriminate.
Defined.

(** ** Quick view and listings *)

Lemma stockOf_cons e sizes : stockOf (e :: sizes) = sz_quantity e + stockOf sizes.
Proof. unfold stockOf. simpl. rewrite fold_add_shift. lia. Qed.

Lemma stockOf_nonneg sizes :
  Forall (fun e => 0 <= sz_quantity e) sizes -> 0 <= stockOf sizes.
Proof.
  induction 1 as [|e sizes He _ IH]; [unfold stockOf; simpl; lia|].
  rewrite stockOf_cons. lia.
Qed.

Lemma stockOf_positive_iff sizes :
  Forall (fun e => 0 <= sz_quantity e) sizes ->
  (0 < stockOf sizes <-> existsb (fun s => 0 <? sz_quantity s) sizes = true).
Proof.
  induction 1 as [|e sizes He Hall IH]; [unfold stockOf; simpl; split; [lia|discriminate]|].
  rewrite stockOf_cons. simpl.
  pose proof (stockOf_nonneg sizes Hall) as Hs.
  destruct (0 <? sz_quantity e) eqn:E; simpl.
  - apply Z.ltb_lt in E. split; [reflexivity|lia].
  - apply Z.ltb_ge in E. rewrite <- IH. split; lia.
Qed.

Lemma offeredSizes_nil_iff p : offeredSizes p = [] <-> inStock p = false.
Proof.
  unfold offeredSizes, inStock. induction (p_sizes p) as [|e sizes IH]; simpl.
  - split; reflexivity.
  - destruct (0 <? sz_quantity e); simpl; [split; discriminate|exact IH].
Qed.

(** X5. The quick view of a product reports as stock the sum of its size
    quantities and offers exactly the sizes whose quantity is positive. When
    no quantity is negative, the reported stock is positive exactly when a
    size is offered, which is also when the listings' stock filter accepts
    the product. *)
Theorem quickview_stock_and_sizes env pid st p :
  fails env QProductFindById = false ->
  findById pid (products st) = Some p ->
  exists qv,
    quickview env pid st = QvSuccess qv
    /\ qv_stock qv = totalStock p
    /\ (forall size, In size (qv_sizes qv) <->
          exists e, In e (p_sizes p) /\ sz_size e = size /\ 0 < sz_quantity e)
    /\ (Forall (fun e => 0 <= sz_quantity e) (p_sizes p) ->
        (0 < qv_stock qv <-> qv_sizes qv <> [])
        /\ (qv_sizes qv <> [] <-> inStock p = true)).
Proof.
  intros Hf Hp. unfold quickview, await. rewrite Hf, Hp.
  eexists. split; [reflexivity|]. simpl. split; [reflexivity|]. split.
  - intros size. unfold offeredSizes. rewrite in_map_iff. split.
    + intros (e & Hs & Hin). apply filter_In in Hin as [Hin Hq].
      exists e. apply Z.ltb_lt in Hq. auto.
    + intros (e & Hin & Hs & Hq). exists e. split; [exact Hs|].
      apply filter_In. split; [exact Hin|]. apply Z.ltb_lt. exact Hq.
  - intros Hnn.
    assert (Hoff : offeredSizes p <> [] <-> inStock p = true).
    { rewrite offeredSizes_nil_iff. destruct (inStock p); split; congruence. }
    split; [|exact Hoff].
    rewrite Hoff. apply stockOf_positive_iff. exact Hnn.
Qed.

Lemma quickview_stock_and_sizes_witness :
  exists qv,
    quickview quietEnv "Q" sampleStore = QvSuccess qv
    /\ qv_stock qv = totalStock plainProduct
    /\ (forall size, In size (qv_sizes qv) <->
          exists e, In e (p_sizes plainProduct) /\ sz_size e = size /\ 0 < sz_quantity e)
    /\ (Forall (fun e => 0 <= sz_quantity e) (p_sizes plainProduct) ->
        (0 < qv_stock qv <-> qv_sizes qv <> [])
        /\ (qv_sizes qv <> [] <-> inStock plainProduct = true)).
Proof.
  apply (quickview_stock_and_sizes quietEnv "Q" sampleStore plainProduct);
    reflexivity.
Defined.

Lemma quickview_missing env pid st :
  fails env QProductFindById = false ->
  findById pid (products st) = None ->
  quickview env pid st = QvNotFound.
Proof. intros Hf Hp. unfold quickview, await. rewrite Hf, Hp. reflexivity. Qed.

Lemma insertNewest_perm {A} (date : A -> option Z) x l :
  insertNewest date x l ≡ₚ x :: l.
Proof.
  induction l as [|y l IH]; simpl; [reflexivity|].
  destruct (newerDate (date y) (date x)); [|reflexivity].
  rewrite IH. apply Permutation_swap.
Qed.

Lemma sortNewest_perm {A} (date : A -> option Z) l : sortNewest date l ≡ₚ l.
Proof.
  induction l as [|x l IH]; simpl; [reflexivity|].
  rewrite insertNewest_perm, IH. reflexivity.
Qed.

Lemma newerDate_asym a b : newerDate a b = true -> newerDate b a = false.
Proof.
  destruct a as [x|], b as [y|]; simpl; try discriminate; try reflexivity.
  intros H. apply Z.ltb_lt in H. apply Z.ltb_ge. lia.
Qed.

Lemma newerDate_neg_trans a b c :
  newerDate b a = false -> newerDate c b = false -> newerDate c a = false.
Proof.
  destruct a as [x|], b as [y|], c as [z|]; simpl; try discriminate; try reflexivity.
  rewrite !Z.ltb_ge. lia.
Qed.

Lemma insertNewest_sorted {A} (date : A -> option Z) x l :
  newestFirst date l -> newestFirst date (insertNewest date x l).
Proof.
  unfold newestFirst. induction 1 as [|y l Hl IH Hy]; simpl.
  - constructor; constructor.
  - destruct (newerDate (date y) (date x)) eqn:E.
    + constructor; [exact IH|].
      apply Forall_forall. intros z Hz.
      apply list_elem_of_In in Hz.
      apply (Permutation_in _ (insertNewest_perm date x l)) in Hz.
      destruct Hz as [<- | Hz]; [apply newerDate_asym; exact E|].
      rewrite Forall_forall in Hy. apply Hy, list_elem_of_In. exact Hz.
    + constructor; [constructor; assumption|].
      constructor; [exact E|].
      apply Forall_forall. intros z Hz. rewrite Forall_forall in Hy.
      apply (newerDate_neg_trans _ (date y)); [exact E|apply Hy; exact Hz].
Qed.

Lemma sortNewest_sorted {A} (date : A -> option Z) l :
  newestFirst date (sortNewest date l).
Proof.
  induction l as [|x l IH]; simpl; [constructor|].
  apply insertNewest_sorted. exact IH.
Qed.

Lemma newestFirst_app {A} (date : A -> option Z) l1 l2 :
  newestFirst date (l1 ++ l2) ->
  newestFirst date l1
  /\ forall a b, In a l1 -> In b l2 -> newerDate (date b) (date a) = false.
Proof.
  unfold newestFirst. induction l1 as [|x l1 IH]; simpl; intros H.
  - split; [constructor|]. intros a b [].
  - inversion H as [|? ? Hs Hx]; subst. destruct (IH Hs) as [Hs1 Hcross].
    rewrite Forall_app in Hx. destruct Hx as [Hx1 Hx2].
    split; [constructor; assumption|].
    intros a b [<- | Ha] Hb; [|apply Hcross; assumption].
    rewrite Forall_forall in Hx2. apply Hx2, list_elem_of_In. exact Hb.
Qed.

Lemma findNewest_In filter limit docs d :
  In d (findNewest filter limit docs) -> In d docs /\ filter d = true.
Proof.
  unfold findNewest. intros H.
  assert (Hs : In d (sortNewest l_createdAt (List.filter filter docs))).
  { rewrite <- (take_drop limit). apply in_or_app. left. exact H. }
  apply (Permutation_in _ (sortNewest_perm _ _)) in Hs.
  apply filter_In in Hs. exact Hs.
Qed.

Lemma findNewest_length filter limit docs :
  length (findNewest filter limit docs)
  = Nat.min limit (length (List.filter filter docs)).
Proof.
  unfold findNewest. rewrite length_take.
  rewrite (Permutation_length (sortNewest_perm l_createdAt (List.filter filter docs))).
  reflexivity.
Qed.

(** X6. The category page, the featured list and the new arrivals list show
    only products of the collection that pass their filter and have a size
    in stock, at most 20, 8 and 8 of them; when no quantity is negative
    every product shown has a positive total stock. *)
Theorem listings_only_in_stock docs category since :
  (forall d, In d (categoryProducts category docs) ->
     In d docs /\ l_category d = category /\ inStock (l_product d) = true)
  /\ (forall d, In d (featuredProducts docs) ->
        In d docs /\ l_featured d = true /\ inStock (l_product d) = true)
  /\ (forall d, In d (newArrivals since docs) ->
        In d docs /\ (exists t, l_createdAt d = Some t /\ since <= t)
        /\ inStock (l_product d) = true)
  /\ (length (categoryProducts category docs) <= 20)%nat
  /\ (length (featuredProducts docs) <= 8)%nat
  /\ (length (newArrivals since docs) <= 8)%nat
  /\ (forall d,
        In d (categoryProducts category docs ++ featuredProducts docs
              ++ newArrivals since docs) ->
        Forall (fun e => 0 <= sz_quantity e) (p_sizes (l_product d)) ->
        0 < totalStock (l_product d)).
Proof.
  assert (Hc : forall d, In d (categoryProducts category docs) ->
            In d docs /\ l_category d = category /\ inStock (l_product d) = true).
  { intros d Hd. apply findNewest_In in Hd as [Hin Hf].
    apply andb_true_iff in Hf as [Hcat Hs]. apply String.eqb_eq in Hcat. auto. }
  assert (Hfe : forall d, In d (featuredProducts docs) ->
            In d docs /\ l_featured d = true /\ inStock (l_product d) = true).
  { intros d Hd. apply findNewest_In in Hd as [Hin Hf].
    apply andb_true_iff in Hf as [Hft Hs]. auto. }
  assert (Hn : forall d, In d (newArrivals since docs) ->
            In d docs /\ (exists t, l_createdAt d = Some t /\ since <= t)
            /\ inStock (l_product d) = true).
  { intros d Hd. apply findNewest_In in Hd as [Hin Hf].
    apply andb_true_iff in Hf as [Ht Hs]. split; [exact Hin|]. split; [|exact Hs].
    unfold createdSince in Ht. destruct (l_createdAt d) as [t|]; [|discriminate].
    exists t. apply Z.leb_le in Ht. auto. }
  repeat split; try (apply Hc; assumption); try (apply Hfe; assumption);
    try (apply Hn; assumption).
  - unfold categoryProducts. rewrite findNewest_length. lia.
  - unfold featuredProducts. rewrite findNewest_length. lia.
  - unfold newArrivals. rewrite findNewest_length. lia.
  - intros d Hd Hnn. unfold totalStock. apply stockOf_positive_iff; [exact Hnn|].
    rewrite !in_app_iff in Hd. destruct Hd as [Hd | [Hd | Hd]].
    + apply Hc, Hd.
    + apply Hfe, Hd.
    + apply Hn, Hd.
Qed.

(** X7. What the listings show is the newest of what passes their filter:
    as many as the limit allows, newest first, and nothing left out is
    strictly newer than something shown. *)
Theorem findNewest_shows_newest filter limit docs :
  let shown := findNewest filter limit docs in
  length shown = Nat.min limit (length (List.filter filter docs))
  /\ newestFirst l_createdAt shown
  /\ forall d s,
       In d docs -> filter d = true -> ~ In d shown -> In s shown ->
       newerDate (l_createdAt d) (l_createdAt s) = false.
Proof.
  intros shown. split; [apply findNewest_length|].
  pose proof (sortNewest_sorted l_createdAt (List.filter filter docs)) as Hs.
  rewrite <- (take_drop limit) in Hs.
  apply newestFirst_app in Hs as [Hshown Hcross].
  split; [exact Hshown|].
  intros d s Hd Hf Hnot Hin. apply Hcross; [exact Hin|].
  assert (Hall : In d (sortNewest l_createdAt (List.filter filter docs))).
  { apply (Permutation_in _ (Permutation_sym (sortNewest_perm _ _))).
    apply filter_In. auto. }
  rewrite <- (take_drop limit) in Hall. apply in_app_or in Hall as [Hl | Hr];
    [contradiction|exact Hr].
Qed.

Lemma findNewest_shows_newest_witness :
  let old := mkListing sampleProduct "sneakers" true (Some 100) in
  let new := mkListing plainProduct "sneakers" true (Some 200) in
  newerDate (l_createdAt old) (l_createdAt new) = false.
Proof.
  intros old new.
  apply (proj2 (proj2 (findNewest_shows_newest l_featured 1 [old; new])) old new).
  - left. reflexivity.
  - reflexivity.
  - intros [H | []]. discriminate H.
  - left. reflexivity.
Defined.

(** The home page, unlike the featured list, may show a featured product of
    which nothing is in stock. *)
Example homeFeatured_shows_out_of_stock :
  let soldOut :=
    mkListing (mkProduct "S" "Sold out" 999 None [mkSizeEntry 9 0] [] [] None None)
      "boots" true (Some 300) in
  homeFeatured [soldOut] = [soldOut] /\ featuredProducts [soldOut] = [].
Proof. split; reflexivity. Qed.

Lemma listings_only_in_stock_witness :
  let shown := mkListing sampleProduct "sneakers" true (Some 100) in
  let docs := [shown; mkListing plainProduct "loafers" false (Some 200)] in
  In shown docs /\ l_category shown = "sneakers" /\ inStock (l_product shown) = true.
Proof.
  intros shown docs.
  apply (proj1 (listings_only_in_stock docs "sneakers" 0) shown).
  left. reflexivity.
Defined.

(** ** Time of an activity *)

Lemma div_lt_iff (a b q : Z) : 0 < b -> (a / b < q <-> a < b * q).
Proof.
  intros Hb. split.
  - intros H. pose proof (Z.mul_div_le a b Hb).
    pose proof (Z.mod_pos_bound a b Hb). pose proof (Z.div_mod a b). nia.
  - apply Z.div_lt_upper_bound. exact Hb.
Qed.

(** X8. The age shown for a date depends on the elapsed time only: under a
    minute, and for a date in the future, "Just now"; then whole minutes
    from 1 to 59, whole hours from 1 to 23 and whole days from 1 to 6, each
    rounded down and always in the plural; from seven days on, the date
    itself. A missing date reads "Recently". *)
Theorem formatTimeAgo_by_elapsed env (t : Z) :
  let elapsed := now env - t in
  (elapsed < 60000 -> formatTimeAgo env (Some t) = "Just now")
  /\ (60000 <= elapsed < 3600000 ->
      formatTimeAgo env (Some t)
        = Js.numToString (Some (elapsed / 60000)) +:+ " minutes ago"
      /\ 1 <= elapsed / 60000 <= 59)
  /\ (3600000 <= elapsed < 86400000 ->
      formatTimeAgo env (Some t)
        = Js.numToString (Some (elapsed / 3600000)) +:+ " hours ago"
      /\ 1 <= elapsed / 3600000 <= 23)
  /\ (86400000 <= elapsed < 604800000 ->
      formatTimeAgo env (Some t)
        = Js.numToString (Some (elapsed / 86400000)) +:+ " days ago"
      /\ 1 <= elapsed / 86400000 <= 6)
  /\ (604800000 <= elapsed ->
      formatTimeAgo env (Some t) = toLocaleDateString env t)
  /\ formatTimeAgo env None = "Recently".
Proof.
  intros elapsed. unfold formatTimeAgo. fold elapsed.
  assert (Hm : forall q, elapsed / 60000 < q <-> elapsed < 60000 * q)
    by (intros; apply div_lt_iff; lia).
  assert (Hh : forall q, elapsed / 3600000 < q <-> elapsed < 3600000 * q)
    by (intros; apply div_lt_iff; lia).
  assert (Hd : forall q, elapsed / 86400000 < q <-> elapsed < 86400000 * q)
    by (intros; apply div_lt_iff; lia).
  repeat split.
  - intros H. destruct (Z.ltb_spec (elapsed / 60000) 1) as [_|E]; [reflexivity|].
    exfalso. apply Z.le_ngt in E. apply E, Hm. lia.
  - destruct (Z.ltb_spec (elapsed / 60000) 1) as [E|_]; [apply Hm in E; lia|].
    destruct (Z.ltb_spec (elapsed / 60000) 60) as [_|E]; [reflexivity|].
    exfalso. apply Z.le_ngt in E. apply E, Hm. lia.
  - apply Z.div_le_lower_bound; lia.
  - apply Z.lt_succ_r. apply Hm. lia.
  - destruct (Z.ltb_spec (elapsed / 60000) 1) as [E|_]; [apply Hm in E; lia|].
    destruct (Z.ltb_spec (elapsed / 60000) 60) as [E|_]; [apply Hm in E; lia|].
    destruct (Z.ltb_spec (elapsed / 3600000) 24) as [_|E]; [reflexivity|].
    exfalso. apply Z.le_ngt in E. apply E, Hh. lia.
  - apply Z.div_le_lower_bound; lia.
  - apply Z.lt_succ_r. apply Hh. lia.
  - destruct (Z.ltb_spec (elapsed / 60000) 1) as [E|_]; [apply Hm in E; lia|].
    destruct (Z.ltb_spec (elapsed / 60000) 60) as [E|_]; [apply Hm in E; lia|].
    destruct (Z.ltb_spec (elapsed / 3600000) 24) as [E|_]; [apply Hh in E; lia|].
    destruct (Z.ltb_spec (elapsed / 86400000) 7) as [_|E]; [reflexivity|].
    exfalso. apply Z.le_ngt in E. apply E, Hd. lia.
  - apply Z.div_le_lower_bound; lia.
  - apply Z.lt_succ_r. apply Hd. lia.
  - intros H.
    destruct (Z.ltb_spec (elapsed / 60000) 1) as [E|_]; [apply Hm in E; lia|].
    destruct (Z.ltb_spec (elapsed / 60000) 60) as [E|_]; [apply Hm in E; lia|].
    destruct (Z.ltb_spec (elapsed / 3600000) 24) as [E|_]; [apply Hh in E; lia|].
    destruct (Z.ltb_spec (elapsed / 86400000) 7) as [E|_]; [apply Hd in E; lia|].
    reflexivity.
Qed.

Lemma formatTimeAgo_by_elapsed_witness :
  formatTimeAgo quietEnv (Some (now quietEnv - 90000)) = "1 minutes ago"
  /\ formatTimeAgo quietEnv (Some (now quietEnv + 5000)) = "Just now".
Proof.
  split.
  - refine (proj1 (proj1 (proj2 (formatTimeAgo_by_elapsed quietEnv
                                   (now quietEnv - 90000))) _)).
    vm_compute. split; [discriminate|reflexivity].
  - refine (proj1 (formatTimeAgo_by_elapsed quietEnv (now quietEnv + 5000)) _).
    vm_compute. reflexivity.
Defined.

(** ** The dashboard page and its figures *)

Lemma getDashboardStats_error env st q :
  getDashboardStats env st = Err q ->
  In q promiseAllQueries /\ fails env q = true.
Proof.
  unfold getDashboardStats, await. intros H.
  repeat match type of H with
         | context [fails env ?q'] =>
             let E := fresh "E" in destruct (fails env q') eqn:E
         end;
    simpl in H; try discriminate H; injection H as <-;
    (split; [simpl; tauto|assumption]).
Qed.

Lemma getDashboardStats_succeeds_iff env st :
  (exists stats, getDashboardStats env st = Ok stats)
  <-> forall q, In q promiseAllQueries -> fails env q = false.
Proof.
  split.
  - intros [stats H] q Hq. destruct (fails env q) eqn:E; [|reflexivity].
    exfalso. revert H. unfold getDashboardStats, await. simpl in Hq.
    repeat match goal with
           | H : _ \/ _ |- _ => destruct H as [<- | H]
           | H : False |- _ => destruct H
           end;
      repeat match goal with
             | |- context [fails env ?q'] =>
                 let E' := fresh "E" in destruct (fails env q') eqn:E'
             end;
      simpl; congruence.
  - intros H. destruct (getDashboardStats_ok env st H) as (stats & Hs & _).
    exists stats. exact Hs.
Qed.

(** X9. Only an admin session reaches the statistics: any other session is
    sent to the admin login by the page and refused by the API. For an
    admin the page is always rendered: with the statistics exactly when
    none of the eight gathered database calls fails, and otherwise without
    statistics and with the message of one of the calls that failed, which
    the API reports as its error. *)
Theorem dashboard_access_and_degradation env msg role flashError st :
  (sessionIsAdmin role = false ->
     dashboard env msg role flashError st = DashRedirect "/admin-login"
     /\ apiStats env msg role st = StatsUnauthorized)
  /\ (sessionIsAdmin role = true ->
      ((forall q, In q promiseAllQueries -> fails env q = false) ->
       exists stats,
         getDashboardStats env st = Ok stats
         /\ dashboard env msg role flashError st
            = DashRender (Some stats) (default "" flashError)
         /\ apiStats env msg role st = StatsOk stats)
      /\ ((exists q, In q promiseAllQueries /\ fails env q = true) ->
          exists q,
            In q promiseAllQueries /\ fails env q = true
            /\ dashboard env msg role flashError st
               = DashRender None ("Error loading statistics: " +:+ msg q)
            /\ apiStats env msg role st = StatsFailed (msg q))).
Proof.
  unfold dashboard, apiStats. split.
  - intros ->. split; reflexivity.
  - intros ->. split.
    + intros H. destruct (proj2 (getDashboardStats_succeeds_iff env st) H) as [stats Hs].
      exists stats. rewrite Hs. repeat split.
    + intros (q & Hq & Hf).
      destruct (getDashboardStats env st) as [stats|q'] eqn:E.
      * assert (Hex : exists s, getDashboardStats env st = Ok s) by (exists stats; exact E).
        rewrite getDashboardStats_succeeds_iff in Hex.
        rewrite (Hex q Hq) in Hf. discriminate.
      * apply getDashboardStats_error in E as [Hin Hfail].
        exists q'. repeat split; assumption.
Qed.

Lemma dashboard_access_and_degradation_witness :
  (dashboard (failing QOrderCount) (fun _ => "down") (Some "moderator") None
     sampleOrderStore = DashRedirect "/admin-login"
   /\ apiStats (failing QOrderCount) (fun _ => "down") (Some "moderator")
        sampleOrderStore = StatsUnauthorized)
  /\ exists q,
       In q promiseAllQueries /\ fails (failing QOrderCount) q = true
       /\ dashboard (failing QOrderCount) (fun _ => "down") (Some "admin") None
            sampleOrderStore
          = DashRender None ("Error loading statistics: " +:+ "down")
       /\ apiStats (failing QOrderCount) (fun _ => "down") (Some "admin")
            sampleOrderStore = StatsFailed "down".
Proof.
  split.
  - apply (proj1 (dashboard_access_and_degradation (failing QOrderCount)
                    (fun _ => "down") (Some "moderator") None sampleOrderStore)).
    reflexivity.
  - apply (proj2 (proj2 (dashboard_access_and_degradation (failing QOrderCount)
                           (fun _ => "down") (Some "admin") None sampleOrderStore)
                    eq_refl)).
    exists QOrderCount. split; [simpl; tauto|reflexivity].
Defined.

Lemma getDashboardStats_fields env st stats :
  getDashboardStats env st = Ok stats ->
  totalProducts stats = countDocuments (fun _ => true) (products st)
  /\ lowStockItems stats = countDocuments isLowStock (products st)
  /\ totalOrders stats = countDocuments (fun _ => true) (orders st)
  /\ todaysOrders stats
     = countDocuments (fun o => createdSince (todayStart env) (o_createdAt o)) (orders st)
  /\ pendingOrders stats = countDocuments isPending (orders st)
  /\ totalUsers stats = countDocuments (fun _ => true) (users st)
  /\ newUsersToday stats
     = countDocuments (fun u => createdSince (todayStart env) (u_createdAt u)) (users st)
  /\ orderChange stats = (if 100 <? totalOrders stats then 8 else 15)
  /\ userChange stats
     = (if 0 <? newUsersToday stats
        then mathRound (inject_Z (newUsersToday stats) / inject_Z (totalUsers stats) * 100)
        else 5)
  /\ recentActivities stats
     = match map (orderActivity env) (findRecentOrders (orders st)) with
       | [] => [welcomeActivity]
       | acts => acts
       end.
Proof.
  unfold getDashboardStats, await. intros H.
  repeat match type of H with
         | context [fails env ?q'] => destruct (fails env q')
         end;
    simpl in H; try discriminate H; injection H as <-; repeat split;
    simpl; destruct (map _ _); reflexivity.
Qed.

Lemma countDocuments_bounds {A} (f : A -> bool) (docs : list A) :
  0 <= countDocuments f docs <= countDocuments (fun _ => true) docs.
Proof.
  unfold countDocuments. split; [lia|]. apply Nat2Z.inj_le.
  induction docs as [|d docs IH]; simpl; [lia|].
  destruct (f d); simpl; lia.
Qed.

Lemma mathRound_range (x : Q) (lo hi : Z) :
  (inject_Z lo <= x)%Q -> (x <= inject_Z hi)%Q -> lo <= mathRound x <= hi.
Proof.
  intros Hlo Hhi. unfold mathRound. split.
  - rewrite <- (Qfloor_Z lo). apply Qfloor_resp_le. lra.
  - assert (Hup : Qfloor (x + (1 # 2)) < hi + 1); [|lia].
    rewrite Zlt_Qlt. apply Qle_lt_trans with (x + (1 # 2))%Q; [apply Qfloor_le|].
    rewrite inject_Z_plus. change (inject_Z 1) with 1%Q. lra.
Qed.

Lemma inject_Z_pos (t : Z) : 0 < t -> (0 < inject_Z t)%Q.
Proof. intros H. change 0%Q with (inject_Z 0). rewrite <- Zlt_Qlt. exact H. Qed.

Lemma inject_Z_nonneg (t : Z) : 0 <= t -> (0 <= inject_Z t)%Q.
Proof. intros H. change 0%Q with (inject_Z 0). rewrite <- Zle_Qle. exact H. Qed.

Lemma ratio_percent_range (n t : Z) :
  0 < n -> n <= t -> 0 <= mathRound (inject_Z n / inject_Z t * 100) <= 100.
Proof.
  intros Hn Ht.
  assert (Htq : (0 < inject_Z t)%Q) by (apply inject_Z_pos; lia).
  assert (Hnq : (0 <= inject_Z n)%Q) by (apply inject_Z_nonneg; lia).
  assert (Hle : (inject_Z n <= inject_Z t)%Q) by (rewrite <- Zle_Qle; exact Ht).
  assert (H1 : (inject_Z n / inject_Z t <= 1)%Q).
  { apply Qle_shift_div_r; [exact Htq|]. lra. }
  assert (H0 : (0 <= inject_Z n / inject_Z t)%Q).
  { apply Qle_shift_div_l; [exact Htq|]. lra. }
  set (r := (inject_Z n / inject_Z t)%Q) in *. clearbody r.
  apply mathRound_range; unfold inject_Z; lra.
Qed.

Lemma computeAvgOrderValue_nonneg n r : 0 <= computeAvgOrderValue n r.
Proof.
  unfold computeAvgOrderValue.
  destruct (0 <? n) eqn:En; simpl; [|lia].
  destruct (Qpositive r) eqn:Er; [|lia].
  apply Z.ltb_lt in En. unfold Qpositive in Er.
  assert (Hr : (0 < r)%Q).
  { destruct (Qle_bool r 0) eqn:E; [discriminate|].
    apply Qnot_le_lt. intros H. apply Qle_bool_iff in H. congruence. }
  assert (Hn : (0 < inject_Z n)%Q) by (apply inject_Z_pos; exact En).
  assert (Hq : (0 <= r / inject_Z n)%Q).
  { apply Qle_shift_div_l; [exact Hn|]. lra. }
  set (q := (r / inject_Z n)%Q) in *. clearbody q.
  unfold mathRound. rewrite <- (Qfloor_Z 0). apply Qfloor_resp_le.
  unfold inject_Z. lra.
Qed.

(** X10. The figures of the dashboard are consistent with one another: the
    pending and today's orders are among the orders, the new users among
    the users and the low-stock products among the products; the order
    trend is 8 or 15, the user trend is 5 or a percentage from 0 to 100,
    and the average order value is never negative. *)
Theorem dashboard_figures_consistent env st stats :
  getDashboardStats env st = Ok stats ->
  0 <= pendingOrders stats <= totalOrders stats
  /\ 0 <= todaysOrders stats <= totalOrders stats
  /\ 0 <= newUsersToday stats <= totalUsers stats
  /\ 0 <= lowStockItems stats <= totalProducts stats
  /\ (orderChange stats = 8 \/ orderChange stats = 15)
  /\ (userChange stats = 5 \/ 0 <= userChange stats <= 100)
  /\ 0 <= avgOrderValue stats.
Proof.
  intros H.
  pose proof (getDashboardStats_inv _ _ _ H) as (_ & _ & Havg & _).
  apply getDashboardStats_fields in H
    as (Hp & Hl & Ho & Ht & Hpe & Hu & Hn & Hoc & Huc & _).
  repeat split.
  - rewrite Hpe. apply countDocuments_bounds.
  - rewrite Hpe, Ho. apply countDocuments_bounds.
  - rewrite Ht. apply countDocuments_bounds.
  - rewrite Ht, Ho. apply countDocuments_bounds.
  - rewrite Hn. apply countDocuments_bounds.
  - rewrite Hn, Hu. apply countDocuments_bounds.
  - rewrite Hl. apply countDocuments_bounds.
  - rewrite Hl, Hp. apply countDocuments_bounds.
  - rewrite Hoc. destruct (100 <? totalOrders stats); auto.
  - rewrite Huc. destruct (0 <? newUsersToday stats) eqn:E; [right|left; reflexivity].
    apply Z.ltb_lt in E. apply ratio_percent_range; [exact E|].
    rewrite Hn, Hu. apply countDocuments_bounds.
  - rewrite Havg. apply computeAvgOrderValue_nonneg.
Qed.

Lemma dashboard_figures_consistent_witness :
  exists stats,
    getDashboardStats (failing QRevenue) sampleOrderStore = Ok stats
    /\ 0 <= pendingOrders stats <= totalOrders stats
    /\ (userChange stats = 5 \/ 0 <= userChange stats <= 100).
Proof.
  eexists. split; [reflexivity|].
  pose proof (dashboard_figures_consistent (failing QRevenue) sampleOrderStore _ eq_refl)
    as (H1 & _ & _ & _ & _ & H6 & _).
  split; [exact H1|exact H6].
Defined.

Lemma insertByDate_insertNewest o l :
  insertByDate o l = insertNewest o_createdAt o l.
Proof.
  induction l as [|x l IH]; simpl; [reflexivity|].
  rewrite IH. reflexivity.
Qed.

Lemma findRecentOrders_sortNewest os :
  findRecentOrders os = take 5 (sortNewest o_createdAt os).
Proof.
  unfold findRecentOrders, sortNewest. f_equal.
  induction os as [|o os IH]; simpl; [reflexivity|].
  rewrite IH. apply insertByDate_insertNewest.
Qed.

(** X11. The dashboard always shows between one and five activities. With
    no order it is the single welcome entry; otherwise there is one entry
    per order for the newest orders, five at most, newest first, each
    telling the age of its order. *)
Theorem recentActivities_newest_orders env st stats :
  getDashboardStats env st = Ok stats ->
  (1 <= length (recentActivities stats) <= 5)%nat
  /\ (orders st = [] -> recentActivities stats = [welcomeActivity])
  /\ (orders st <> [] ->
      exists recent,
        recentActivities stats = map (orderActivity env) recent
        /\ map act_time (recentActivities stats)
           = map (fun o => formatTimeAgo env (o_createdAt o)) recent
        /\ length recent = Nat.min 5 (length (orders st))
        /\ newestFirst o_createdAt recent
        /\ (forall o, In o recent -> In o (orders st))
        /\ (forall o r, In o (orders st) -> ~ In o recent -> In r recent ->
              newerDate (o_createdAt o) (o_createdAt r) = false)).
Proof.
  intros H. apply getDashboardStats_fields in H as (_ & _ & _ & _ & _ & _ & _ & _ & _ & Ha).
  rewrite findRecentOrders_sortNewest in Ha.
  pose proof (sortNewest_perm o_createdAt (orders st)) as Hperm.
  pose proof (sortNewest_sorted o_createdAt (orders st)) as Hsorted.
  set (sorted := sortNewest o_createdAt (orders st)) in *.
  assert (Hlen : length (take 5 sorted) = Nat.min 5 (length (orders st))).
  { rewrite length_take, (Permutation_length Hperm). reflexivity. }
  rewrite <- (take_drop 5 sorted) in Hsorted.
  apply newestFirst_app in Hsorted as [Hs1 Hcross].
  split; [|split].
  - rewrite Ha. destruct (map (orderActivity env) (take 5 sorted)) as [|a l] eqn:E;
      [simpl; lia|].
    rewrite <- E, length_map, Hlen. split; [|lia].
    assert (length (map (orderActivity env) (take 5 sorted)) <> 0)%nat
      by (rewrite E; discriminate).
    rewrite length_map, Hlen in H. lia.
  - intros Ho. rewrite Ha. subst sorted. rewrite Ho. reflexivity.
  - intros Hne. exists (take 5 sorted).
    assert (Hpos : (0 < length (take 5 sorted))%nat).
    { rewrite Hlen. destruct (orders st); [congruence|simpl; lia]. }
    assert (E : recentActivities stats = map (orderActivity env) (take 5 sorted)).
    { rewrite Ha. destruct (take 5 sorted); [simpl in Hpos; lia|reflexivity]. }
    split; [exact E|]. split; [rewrite E, map_map; reflexivity|].
    split; [exact Hlen|]. split; [exact Hs1|]. split.
    + intros o Ho. apply (Permutation_in _ Hperm).
      rewrite <- (take_drop 5 sorted). apply in_or_app. left. exact Ho.
    + intros o r Ho Hnot Hr. apply Hcross; [exact Hr|].
      apply (Permutation_in _ (Permutation_sym Hperm)) in Ho.
      rewrite <- (take_drop 5 sorted) in Ho.
      apply in_app_or in Ho as [Hl|Hr']; [contradiction|exact Hr'].
Qed.

Lemma recentActivities_newest_orders_witness :
  exists stats,
    getDashboardStats quietEnv sampleOrderStore = Ok stats
    /\ (1 <= length (recentActivities stats) <= 5)%nat.
Proof.
  eexists. split; [reflexivity|].
  exact (proj1 (recentActivities_newest_orders quietEnv sampleOrderStore _ eq_refl)).
Defined.

Lemma aggregateRevenue_ignores os o :
  isCompleted o = false -> aggregateRevenue (os ++ [o]) = aggregateRevenue os.
Proof.
  intros H. unfold aggregateRevenue. rewrite List.filter_app. simpl. rewrite H.
  rewrite app_nil_r. reflexivity.
Qed.

Lemma average_shrinks (n : Z) (r : Q) :
  0 < n -> (0 < r)%Q ->
  mathRound (r / inject_Z (n + 1)) <= mathRound (r / inject_Z n).
Proof.
  intros Hn Hr. unfold mathRound. apply Qfloor_resp_le.
  assert (Hm : (0 < inject_Z n)%Q) by (apply inject_Z_pos; exact Hn).
  assert (Hm1 : (0 < inject_Z (n + 1))%Q) by (apply inject_Z_pos; lia).
  assert (Hq : (0 <= r / inject_Z n)%Q).
  { apply Qle_shift_div_l; [exact Hm|]. lra. }
  assert (Hmul : (inject_Z n * (r / inject_Z n) == r)%Q).
  { apply Qmult_div_r. intros E. rewrite E in Hm. lra. }
  assert (Hle : (r / inject_Z (n + 1) <= r / inject_Z n)%Q).
  { apply Qle_shift_div_r; [exact Hm1|].
    rewrite inject_Z_plus. change (inject_Z 1) with 1%Q.
    set (q := (r / inject_Z n)%Q) in *. clearbody q.
    set (m := inject_Z n) in *. clearbody m. nra. }
  lra.
Qed.

(** X12. An order that is not completed adds nothing to the revenue: with
    one more such order the total revenue is the same, the number of orders
    is one higher, and the average order value, which divides by all
    orders, does not rise. *)
Theorem revenue_ignores_open_orders env st st' o stats stats' :
  isCompleted o = false ->
  orders st' = orders st ++ [o] ->
  getDashboardStats env st = Ok stats ->
  getDashboardStats env st' = Ok stats' ->
  totalRevenue stats' = totalRevenue stats
  /\ totalOrders stats' = totalOrders stats + 1
  /\ avgOrderValue stats' <= avgOrderValue stats.
Proof.
  intros Ho Hos H H'.
  apply getDashboardStats_inv in H as (Hn & Hr & Ha & _).
  apply getDashboardStats_inv in H' as (Hn' & Hr' & Ha' & _).
  assert (Er : totalRevenue stats' = totalRevenue stats).
  { rewrite Hr, Hr'. unfold computeRevenue, await.
    rewrite Hos, aggregateRevenue_ignores by exact Ho. reflexivity. }
  assert (En : totalOrders stats' = totalOrders stats + 1).
  { rewrite Hn, Hn'. unfold countDocuments. rewrite Hos, List.filter_app, length_app.
    simpl. lia. }
  split; [exact Er|]. split; [exact En|].
  rewrite Ha, Ha', Er, En. unfold computeAvgOrderValue.
  assert (Hn0 : 0 <= totalOrders stats) by (rewrite Hn; apply countDocuments_bounds).
  destruct (Qpositive (totalRevenue stats)) eqn:Ep.
  - assert (Hpos : (0 < totalRevenue stats)%Q).
    { unfold Qpositive in Ep. destruct (Qle_bool (totalRevenue stats) 0) eqn:E;
        [discriminate|].
      apply Qnot_le_lt. intros Hle. apply Qle_bool_iff in Hle. congruence. }
    assert (Hnpos : 0 < totalOrders stats).
    { destruct (Z.eq_dec (totalOrders stats) 0) as [E0|]; [|lia].
      exfalso. rewrite Hn in E0. unfold countDocuments in E0.
      destruct (orders st) eqn:Eo; [|simpl in E0; lia].
      rewrite Hr in Hpos. unfold computeRevenue, await in Hpos. rewrite Eo in Hpos.
      destruct (fails env QRevenue); simpl in Hpos; lra. }
    destruct (0 <? totalOrders stats + 1) eqn:E1; [|apply Z.ltb_ge in E1; lia].
    destruct (0 <? totalOrders stats) eqn:E2; [|apply Z.ltb_ge in E2; lia].
    simpl. apply average_shrinks; assumption.
  - rewrite !andb_false_r. lia.
Qed.

Lemma revenue_ignores_open_orders_witness :
  let st' :=
    {| products := products sampleOrderStore;
       carts := carts sampleOrderStore;
       orders := orders sampleOrderStore ++ [sampleOrder "64f0c0ffee000004" "pending" 900];
       users := users sampleOrderStore |} in
  exists stats stats',
    getDashboardStats quietEnv sampleOrderStore = Ok stats
    /\ getDashboardStats quietEnv st' = Ok stats'
    /\ totalRevenue stats' = totalRevenue stats
    /\ totalOrders stats' = totalOrders stats + 1
    /\ avgOrderValue stats' <= avgOrderValue stats.
Proof.
  intros st'. do 2 eexists. split; [reflexivity|]. split; [reflexivity|].
  apply (revenue_ignores_open_orders quietEnv sampleOrderStore st'
           (sampleOrder "64f0c0ffee000004" "pending" 900)); reflexivity.
Defined.

(** ** Authentication middleware *)

(** X13. [ensureAdmin] lets a request through exactly when it is
    authenticated as an admin or a moderator, and whatever it lets through
    [ensureAuthenticated] lets through as well. Everyone else is sent, with
    the message "Admin access required", to the admin login when the URL
    starts with /admin and to the home page otherwise. *)
Theorem ensureAdmin_staff_only req :
  (ensureAdmin req = Next <->
     req_role req = Some "admin" \/ req_role req = Some "moderator")
  /\ (ensureAdmin req = Next -> ensureAuthenticated req = Next)
  /\ (ensureAdmin req <> Next ->
      ensureAdmin req
      = Redirect (Some "Admin access required")
          (if String.prefix "/admin" (req_originalUrl req) then "/admin/login" else "/")).
Proof.
  unfold ensureAdmin, ensureAuthenticated, isAuthenticated, isStaff.
  destruct (req_role req) as [r|]; simpl.
  - destruct (String.eqb_spec r "admin") as [->|Ha];
      [|destruct (String.eqb_spec r "moderator") as [->|Hm]]; simpl.
    + repeat split; auto.  congruence.
    + repeat split; auto. congruence.
    + repeat split.
      * destruct (String.prefix "/admin" (req_originalUrl req)); discriminate.
      * intros [[= ->] | [= ->]]; congruence.
      * destruct (String.prefix "/admin" (req_originalUrl req)); reflexivity.
  - repeat split.
    + destruct (String.prefix "/admin" (req_originalUrl req)); discriminate.
    + intros [H | H]; discriminate H.
    + destruct (String.prefix "/admin" (req_originalUrl req)); discriminate.
    + destruct (String.prefix "/admin" (req_originalUrl req)); reflexivity.
Qed.

Lemma ensureAdmin_staff_only_witness :
  ensureAuthenticated (mkRequest (Some "moderator") "/admin/products") = Next
  /\ ensureAdmin (mkRequest (Some "customer") "/admin/products")
     = Redirect (Some "Admin access required") "/admin/login".
Proof.
  split.
  - apply (proj1 (proj2 (ensureAdmin_staff_only
                           (mkRequest (Some "moderator") "/admin/products")))).
    reflexivity.
  - apply (proj2 (proj2 (ensureAdmin_staff_only
                           (mkRequest (Some "customer") "/admin/products")))).
    discriminate.
Defined.

(** X14. [forwardAuthenticated] is the complement of
    [ensureAuthenticated]: of the two, exactly one lets a request through.
    A request it stops goes to the admin dashboard when it comes from an
    admin or a moderator for a URL containing /login, and to the home page
    otherwise; it is never sent back to a login page. *)
Theorem forwardAuthenticated_complement req :
  (forwardAuthenticated req = Next <-> ensureAuthenticated req <> Next)
  /\ (forwardAuthenticated req <> Next ->
      forwardAuthenticated req
      = Redirect None
          (if isStaff req && includes "/login" (req_originalUrl req)
           then "/admin/dashboard" else "/")).
Proof.
  unfold forwardAuthenticated, ensureAuthenticated, isAuthenticated.
  destruct (req_role req) as [r|] eqn:E; simpl.
  - split.
    + split; [|congruence].
      destruct (isStaff req && includes "/login" (req_originalUrl req)); discriminate.
    + intros _.
      destruct (isStaff req && includes "/login" (req_originalUrl req)); reflexivity.
  - split; [split; [discriminate|reflexivity]|congruence].
Qed.

Lemma forwardAuthenticated_complement_witness :
  forwardAuthenticated (mkRequest (Some "admin") "/login")
  = Redirect None "/admin/dashboard"
  /\ forwardAuthenticated (mkRequest None "/login") = Next.
Proof.
  split.
  - apply (proj2 (forwardAuthenticated_complement (mkRequest (Some "admin") "/login"))).
    discriminate.
  - apply (proj1 (forwardAuthenticated_complement (mkRequest None "/login"))).
    discriminate.
Defined.

(** ** Admin login *)

(** X15. The admin login puts a user in the session only when the account
    exists, the password matches and the role is admin; the session then
    carries that account's identity and passes the guard of the admin
    pages. In every other case, an exception included, nothing is put in
    the session and the visitor is sent back to the login with an error. *)
Theorem adminLogin_admin_only found isMatch :
  (forall su, lo_session (adminLogin found isMatch) = Some su ->
     exists user,
       found = Some (Some user) /\ isMatch user = Some true
       /\ acc_role user = "admin"
       /\ su = mkSessionUser (acc_id user) (acc_name user) (acc_email user) "admin"
       /\ sessionIsAdmin (Some (su_role su)) = true
       /\ lo_redirect (adminLogin found isMatch) = "/admin/dashboard")
  /\ (lo_session (adminLogin found isMatch) = None ->
      lo_redirect (adminLogin found isMatch) = "/admin-login"
      /\ fst (lo_flash (adminLogin found isMatch)) = "error_msg")
  /\ (forall user, found = Some (Some user) -> isMatch user = Some true ->
        acc_role user = "admin" ->
        lo_session (adminLogin found isMatch)
        = Some (mkSessionUser (acc_id user) (acc_name user) (acc_email user) "admin")).
Proof.
  unfold adminLogin. split; [|split].
  - intros su. destruct found as [[user|]|]; simpl; try discriminate.
    destruct (isMatch user) as [[|]|] eqn:Em; simpl; try discriminate.
    destruct (String.eqb_spec (acc_role user) "admin") as [Hr|Hr]; simpl;
      [|discriminate].
    intros [= <-]. exists user. rewrite Hr. repeat split. exact Em.
  - destruct found as [[user|]|]; simpl; auto.
    destruct (isMatch user) as [[|]|]; simpl; auto.
    destruct (String.eqb_spec (acc_role user) "admin"); simpl; [discriminate|auto].
  - intros user -> Hm Hr. rewrite Hm, Hr. reflexivity.
Qed.

Lemma adminLogin_admin_only_witness :
  let moderator := mkAccount "7" "Mo" "mo@shop.in" "$2a$10$hash" "moderator" in
  let outcome := adminLogin (Some (Some moderator)) (fun _ => Some true) in
  lo_redirect outcome = "/admin-login" /\ fst (lo_flash outcome) = "error_msg".
Proof.
  intros moderator outcome.
  apply (proj1 (proj2 (adminLogin_admin_only (Some (Some moderator))
                         (fun _ => Some true)))).
  reflexivity.
Defined.

(** ** Account locking *)

Lemma failedLogins_unlocked times : forall u,
  lockUntil u = None ->
  loginAttempts u + Z.of_nat (length times) < 5 ->
  failedLogins times u
  = mkLoginState (loginAttempts u + Z.of_nat (length times)) None.
Proof.
  unfold failedLogins.
  induction times as [|t times IH]; intros [n l] Hl Hn; simpl in *.
  - subst l. f_equal. lia.
  - subst l. unfold incLoginAttempts at 2, isLocked. simpl.
    destruct (5 <=? n + 1) eqn:E; [apply Z.leb_le in E; lia|]. simpl.
    rewrite IH; simpl; [f_equal; lia|reflexivity|lia].
Qed.

Lemma incLoginAttempts_fifth now u :
  lockUntil u = None -> 4 <= loginAttempts u ->
  incLoginAttempts now u = mkLoginState (loginAttempts u + 1) (Some (now + lockTime)).
Proof.
  intros Hl Hn. unfold incLoginAttempts, isLocked. rewrite Hl.
  destruct (5 <=? loginAttempts u + 1) eqn:E; [reflexivity|].
  apply Z.leb_gt in E. lia.
Qed.

Lemma failedLogins_app times t u :
  failedLogins (times ++ [t]) u = incLoginAttempts t (failedLogins times u).
Proof. unfold failedLogins. rewrite fold_left_app. reflexivity. Qed.

(** X16. Starting from an account without failed logins, fewer than five
    failures, whenever they happen, lock nothing; the fifth failure locks
    the account for twenty-four hours from its own time. *)
Theorem fifth_failure_locks (times : list Z) (t : Z) :
  ((length times < 5)%nat ->
     failedLogins times (mkLoginState 0 None)
     = mkLoginState (Z.of_nat (length times)) None)
  /\ (length times = 4%nat ->
      failedLogins (times ++ [t]) (mkLoginState 0 None)
      = mkLoginState 5 (Some (t + lockTime))
      /\ forall later, t <= later < t + lockTime ->
           isLocked later (failedLogins (times ++ [t]) (mkLoginState 0 None)) = true)
  /\ (length times = 4%nat ->
      isLocked (t + lockTime) (failedLogins (times ++ [t]) (mkLoginState 0 None))
      = false).
Proof.
  assert (H4 : length times = 4%nat ->
               failedLogins (times ++ [t]) (mkLoginState 0 None)
               = mkLoginState 5 (Some (t + lockTime))).
  { intros Hlen. rewrite failedLogins_app, failedLogins_unlocked; simpl; [|reflexivity|lia].
    rewrite incLoginAttempts_fifth; simpl; [|reflexivity|lia].
    rewrite Hlen. reflexivity. }
  split; [|split].
  - intros Hlen. rewrite failedLogins_unlocked; simpl; [reflexivity|reflexivity|lia].
  - intros Hlen. split; [apply H4; exact Hlen|].
    intros later Hlater. rewrite (H4 Hlen). unfold isLocked. simpl.
    apply Z.ltb_lt. lia.
  - intros Hlen. rewrite (H4 Hlen). unfold isLocked. simpl. apply Z.ltb_irrefl.
Qed.

Lemma fifth_failure_locks_witness :
  failedLogins ([10; 20; 30; 40] ++ [50]) (mkLoginState 0 None)
  = mkLoginState 5 (Some (50 + lockTime))
  /\ failedLogins [10; 20; 30; 40] (mkLoginState 0 None) = mkLoginState 4 None.
Proof.
  split.
  - apply (proj1 (proj2 (fifth_failure_locks [10; 20; 30; 40] 50))). reflexivity.
  - apply (proj1 (fifth_failure_locks [10; 20; 30; 40] 50)). simpl. lia.
Defined.

(** X17. While an account is locked, further failures are counted but
    neither extend nor lift the lock: it ends when it was set to end. *)
Theorem locked_account_lock_unchanged (times : list Z) (u : LoginState) :
  Forall (fun t => isLocked t u = true) times ->
  failedLogins times u
  = mkLoginState (loginAttempts u + Z.of_nat (length times)) (lockUntil u).
Proof.
  unfold failedLogins. revert u.
  induction times as [|t times IH]; intros [n l] Hall; simpl.
  - f_equal. lia.
  - inversion Hall as [|? ? Ht Hrest]; subst.
    assert (E : incLoginAttempts t (mkLoginState n l) = mkLoginState (n + 1) l).
    { unfold incLoginAttempts. rewrite Ht. simpl.
      unfold isLocked in Ht. simpl in Ht. destruct l as [e|]; [|discriminate].
      apply Z.ltb_lt in Ht.
      destruct (e <? t) eqn:Ee; [apply Z.ltb_lt in Ee; lia|].
      rewrite andb_false_r. reflexivity. }
    rewrite E, IH; simpl; [f_equal; lia|exact Hrest].
Qed.

Lemma locked_account_lock_unchanged_witness :
  failedLogins [60; 70] (mkLoginState 5 (Some 1000)) = mkLoginState 7 (Some 1000).
Proof.
  apply (locked_account_lock_unchanged [60; 70] (mkLoginState 5 (Some 1000))).
  repeat constructor.
Defined.

(** X18. The first failure after a lock has run out clears the lock and
    restarts the count at 1, so that four further failures are needed to
    lock the account again. *)
Theorem expired_lock_restarts_count (u : LoginState) (expiry t t' : Z)
    (times : list Z) :
  lockUntil u = Some expiry -> expiry < t ->
  incLoginAttempts t u = mkLoginState 1 None
  /\ ((length times < 4)%nat ->
      failedLogins (t :: times) u = mkLoginState (1 + Z.of_nat (length times)) None)
  /\ (length times = 3%nat ->
      failedLogins (t :: times ++ [t']) u = mkLoginState 5 (Some (t' + lockTime))).
Proof.
  intros Hl He.
  assert (E : incLoginAttempts t u = mkLoginState 1 None).
  { unfold incLoginAttempts. rewrite Hl. apply Z.ltb_lt in He. rewrite He. reflexivity. }
  split; [exact E|]. split.
  - intros Hlen. change (failedLogins (t :: times) u)
      with (failedLogins times (incLoginAttempts t u)).
    rewrite E, failedLogins_unlocked; simpl; [reflexivity|reflexivity|lia].
  - intros Hlen. change (failedLogins (t :: times ++ [t']) u)
      with (failedLogins (times ++ [t']) (incLoginAttempts t u)).
    rewrite E, failedLogins_app, failedLogins_unlocked; simpl; [|reflexivity|lia].
    rewrite incLoginAttempts_fifth; simpl; [|reflexivity|lia].
    rewrite Hlen. reflexivity.
Qed.

Lemma expired_lock_restarts_count_witness :
  incLoginAttempts 2000 (mkLoginState 9 (Some 1000)) = mkLoginState 1 None
  /\ failedLogins (2000 :: [2001; 2002; 2003] ++ [2004]) (mkLoginState 9 (Some 1000))
     = mkLoginState 5 (Some (2004 + lockTime)).
Proof.
  pose proof (expired_lock_restarts_count (mkLoginState 9 (Some 1000)) 1000 2000 2004
                [2001; 2002; 2003] eq_refl eq_refl) as (H1 & _ & H3).
  split; [exact H1|apply H3; reflexivity].
Defined.

(** A failure at the very instant a lock ends finds the account neither
    locked nor the lock run out, and locks it for another day. *)
Example failure_at_expiry_relocks :
  incLoginAttempts 1000 (mkLoginState 5 (Some 1000))
  = mkLoginState 6 (Some (1000 + lockTime)).
Proof. reflexivity. Qed.

(** ** More on adding to the cart *)

Lemma addItem_cases env user pid quantity size color st :
  let result := addItem env user pid quantity size color st in
  (fst result = st /\ (snd result = AddError \/ snd result = AddNotFound)
   /\ (snd result = AddNotFound ->
       fails env QProductFindById = false /\ findById pid (products st) = None))
  \/ exists p,
       findById pid (products st) = Some p
       /\ fails env QProductFindById = false
       /\ fails env QCartFindOne = false
       /\ fails env QCartSave = false
       /\ let items' :=
            mergeItem p (default 1 quantity) size color (default [] (carts st !! user)) in
          fst result = {| products := products st;
                          carts := <[user := items']> (carts st);
                          orders := orders st;
                          users := users st |}
          /\ snd result = (if fails env QCartPopulate then AddError
                           else AddSuccess items' (cartCount items')).
Proof.
  unfold addItem, await.
  destruct (fails env QProductFindById) eqn:E1;
    [left; simpl; repeat split; auto; discriminate|].
  destruct (findById pid (products st)) as [p|] eqn:Ep;
    [|left; simpl; repeat split; auto].
  destruct (fails env QCartFindOne) eqn:E2;
    [left; simpl; repeat split; auto; discriminate|].
  destruct (fails env QCartSave) eqn:E3;
    [left; simpl; repeat split; auto; discriminate|].
  right. exists p. repeat split; destruct (fails env QCartPopulate); reflexivity.
Qed.

(** X19. Adding to the cart never touches the products, the orders, the
    users or another user's cart. The answer is a success exactly when the
    product exists and none of the four database calls fails, and it then
    shows the saved cart with its count. A 404 or an error leaves the
    store as it was, with one exception: when only the final reload of the
    cart fails, the answer is an error although the cart has been saved. *)
Theorem addItem_frame_and_outcomes env user pid quantity size color st :
  let result := addItem env user pid quantity size color st in
  products (fst result) = products st
  /\ orders (fst result) = orders st
  /\ users (fst result) = users st
  /\ (forall other, other <> user -> carts (fst result) !! other = carts st !! other)
  /\ ((exists cart n, snd result = AddSuccess cart n) <->
      (exists p, findById pid (products st) = Some p)
      /\ fails env QProductFindById = false /\ fails env QCartFindOne = false
      /\ fails env QCartSave = false /\ fails env QCartPopulate = false)
  /\ (forall cart n, snd result = AddSuccess cart n ->
        carts (fst result) !! user = Some cart /\ n = cartCount cart)
  /\ (snd result = AddNotFound -> fst result = st)
  /\ (snd result = AddError ->
      fst result = st
      \/ (fails env QCartPopulate = true
          /\ exists p, findById pid (products st) = Some p
             /\ carts (fst result) !! user
                = Some (mergeItem p (default 1 quantity) size color
                          (default [] (carts st !! user))))).
Proof.
  intros result.
  destruct (addItem_cases env user pid quantity size color st)
    as [(Hst & Hr & Hnf) | (p & Hp & E1 & E2 & E3 & Hst & Hr)];
    fold result in Hst, Hr |- *.
  - assert (Hno : forall cart n, snd result <> AddSuccess cart n).
    { intros cart n H. destruct Hr as [Hr|Hr]; rewrite Hr in H; discriminate. }
    rewrite Hst.
    split; [reflexivity|]. split; [reflexivity|]. split; [reflexivity|].
    split; [reflexivity|]. split; [|split; [|split]].
    + split.
      * intros (cart & n & H). destruct (Hno cart n H).
      * intros ((p & Hp) & E1 & E2 & E3 & E4). exfalso.
        unfold result, addItem, await in Hr. rewrite E1, Hp, E2, E3, E4 in Hr.
        destruct Hr; discriminate.
    + intros cart n H. destruct (Hno cart n H).
    + reflexivity.
    + intros _. left. reflexivity.
  - rewrite Hst, Hr. simpl.
    split; [reflexivity|]. split; [reflexivity|]. split; [reflexivity|].
    split; [|split; [|split; [|split]]].
    + intros other Hne. apply lookup_insert_ne. congruence.
    + split.
      * intros (cart & n & H). split; [exists p; exact Hp|].
        destruct (fails env QCartPopulate); [discriminate|auto].
      * intros (_ & _ & _ & _ & E4). rewrite E4. eauto.
    + intros cart n H. destruct (fails env QCartPopulate); [discriminate|].
      injection H as <- <-. split; [apply lookup_insert_eq|reflexivity].
    + intros H. destruct (fails env QCartPopulate); discriminate.
    + intros H. right. destruct (fails env QCartPopulate); [|discriminate].
      split; [reflexivity|]. exists p. split; [exact Hp|apply lookup_insert_eq].
Qed.

Lemma addItem_frame_and_outcomes_witness :
  let result := addItem (failing QCartPopulate) "u1" "P" (Some 2) 9 "Black" sampleStore in
  snd result = AddError
  /\ (fst result = sampleStore
      \/ (fails (failing QCartPopulate) QCartPopulate = true
          /\ exists p, findById "P" (products sampleStore) = Some p
             /\ carts (fst result) !! "u1"
                = Some (mergeItem p (default 1 (Some 2)) 9 "Black"
                          (default [] (carts sampleStore !! "u1"))))).
Proof.
  intros result. split; [reflexivity|].
  apply (proj2 (proj2 (proj2 (proj2 (proj2 (proj2 (proj2
           (addItem_frame_and_outcomes (failing QCartPopulate) "u1" "P" (Some 2) 9
              "Black" sampleStore)))))))).
  reflexivity.
Defined.

Lemma cartCount_cons item items :
  cartCount (item :: items) = item_quantity item + cartCount items.
Proof. rewrite !cartCount_sum. reflexivity. Qed.

Lemma cartCount_app items items' :
  cartCount (items ++ items') = cartCount items + cartCount items'.
Proof.
  induction items as [|i items IH]; [rewrite !cartCount_sum; simpl; lia|].
  simpl. rewrite !cartCount_cons, IH. lia.
Qed.

Lemma bumpFirst_count pid size color n items items' :
  bumpFirst pid size color n items = Some items' ->
  cartCount items' = cartCount items + n.
Proof.
  revert items'. induction items as [|x items IH]; intros items' H; simpl in H;
    [discriminate|].
  destruct (sameLine pid size color x).
  - injection H as <-. rewrite !cartCount_cons. simpl. lia.
  - destruct (bumpFirst pid size color n items) as [r|]; [|discriminate].
    injection H as <-. rewrite !cartCount_cons, (IH r eq_refl). lia.
Qed.

Lemma mergeItem_count p quantity size color items :
  cartCount (mergeItem p quantity size color items) = cartCount items + quantity.
Proof.
  unfold mergeItem.
  destruct (bumpFirst (p_id p) size color quantity items) as [items'|] eqn:E.
  - apply (bumpFirst_count _ _ _ _ _ _ E).
  - rewrite cartCount_app, cartCount_cons. change (cartCount []) with 0. simpl. lia.
Qed.

(** X20. A successful add raises the cart count by exactly the quantity
    added, 1 when none is given, whether the line is new or merged: the
    count in the answer, and the count the navbar then reads, is the
    previous count plus that quantity. *)
Theorem addItem_count_grows env user pid quantity size color st cart n :
  fails env QCartFindOne = false ->
  snd (addItem env user pid quantity size color st) = AddSuccess cart n ->
  n = count env (Some user) st + default 1 quantity
  /\ count env (Some user) (fst (addItem env user pid quantity size color st)) = n.
Proof.
  intros Hf Hs.
  destruct (addItem_cases env user pid quantity size color st)
    as [(_ & Hr & _) | (p & Hp & _ & _ & _ & Hst & Hr)].
  - rewrite Hs in Hr. destruct Hr; discriminate.
  - rewrite Hs in Hr. destruct (fails env QCartPopulate); [discriminate|].
    injection Hr as -> ->. rewrite Hst.
    unfold count, await. rewrite Hf. simpl. rewrite lookup_insert_eq.
    rewrite mergeItem_count. split; [|reflexivity].
    destruct (carts st !! user) as [items|]; simpl; [reflexivity|].
    rewrite cartCount_sum. reflexivity.
Qed.

Lemma addItem_count_grows_witness :
  let st := fst (addItem quietEnv "u1" "P" (Some 2) 9 "Black" sampleStore) in
  3 = count quietEnv (Some "u1") st + default 1 None
  /\ count quietEnv (Some "u1") (fst (addItem quietEnv "u1" "Q" None 8 "Brown" st)) = 3.
Proof.
  intros st.
  apply (addItem_count_grows quietEnv "u1" "Q" None 8 "Brown" st
           [newItem sampleProduct 2 9 "Black"; newItem plainProduct 1 8 "Brown"] 3);
    reflexivity.
Defined.

Lemma bumpFirst_snapshots pid size color n items items' :
  bumpFirst pid size color n items = Some items' ->
  map snapshotOf items' = map snapshotOf items.
Proof.
  revert items'. induction items as [|x items IH]; intros items' H; simpl in H;
    [discriminate|].
  destruct (sameLine pid size color x).
  - injection H as <-. reflexivity.
  - destruct (bumpFirst pid size color n items) as [r|]; [|discriminate].
    injection H as <-. simpl. rewrite (IH r eq_refl). reflexivity.
Qed.

Lemma mergeItem_snapshots p quantity size color items :
  map snapshotOf (take (length items) (mergeItem p quantity size color items))
  = map snapshotOf items.
Proof.
  unfold mergeItem.
  destruct (bumpFirst (p_id p) size color quantity items) as [items'|] eqn:E.
  - rewrite take_ge; [apply (bumpFirst_snapshots _ _ _ _ _ _ E)|].
    pose proof (f_equal (@length _) (bumpFirst_snapshots _ _ _ _ _ _ E)) as Hl.
    rewrite !length_map in Hl. lia.
  - rewrite take_app_length. reflexivity.
Qed.

(** X21. An add never rewrites the lines already in the cart: each keeps
    its product, size, colour, name, price, discounted price and image, in
    the same position; only a quantity can change. In particular, adding
    again after the admin has changed the product's prices keeps the
    prices the line was first added with. *)
Theorem addItem_keeps_snapshots env user pid quantity size color st items :
  carts st !! user = Some items ->
  (exists items',
     carts (fst (addItem env user pid quantity size color st)) !! user = Some items'
     /\ map snapshotOf (take (length items) items') = map snapshotOf items)
  /\ forall price discount,
       exists items',
         carts (fst (addItem env user pid quantity size color
                       (editProductPrices pid price discount st))) !! user
           = Some items'
         /\ map snapshotOf (take (length items) items') = map snapshotOf items.
Proof.
  assert (H : forall st0, carts st0 !! user = Some items ->
            exists items',
              carts (fst (addItem env user pid quantity size color st0)) !! user
                = Some items'
              /\ map snapshotOf (take (length items) items') = map snapshotOf items).
  { intros st0 Hc.
    destruct (addItem_cases env user pid quantity size color st0)
      as [(Hst & _) | (p & _ & _ & _ & _ & Hst & _)]; rewrite Hst.
    - exists items. split; [exact Hc|]. rewrite take_ge by lia. reflexivity.
    - simpl. rewrite lookup_insert_eq, Hc. simpl. eexists. split; [reflexivity|].
      apply mergeItem_snapshots. }
  intros Hc. split; [apply H; exact Hc|].
  intros price discount. apply H. exact Hc.
Qed.

Lemma addItem_keeps_snapshots_witness :
  let st := fst (addItem quietEnv "u1" "P" (Some 2) 9 "Black" sampleStore) in
  exists items',
    carts (fst (addItem quietEnv "u1" "P" (Some 1) 9 "Black"
                  (editProductPrices "P" 1499 None st))) !! "u1" = Some items'
    /\ map snapshotOf (take (length [newItem sampleProduct 2 9 "Black"]) items')
       = map snapshotOf [newItem sampleProduct 2 9 "Black"].
Proof.
  intros st.
  apply (proj2 (addItem_keeps_snapshots quietEnv "u1" "P" (Some 1) 9 "Black" st
                  [newItem sampleProduct 2 9 "Black"] eq_refl) 1499%Q None).
Defined.

Example addItem_after_price_edit_keeps_old_price :
  let st := fst (addItem quietEnv "u1" "P" (Some 2) 9 "Black" sampleStore) in
  let st' := fst (addItem quietEnv "u1" "P" (Some 1) 9 "Black"
                    (editProductPrices "P" 1499 None st)) in
  option_map (map (fun i => (item_price i, item_discountedPrice i, item_quantity i)))
    (carts st' !! "u1")
  = Some [(1299%Q, Some 899%Q, 3)].
Proof. reflexivity. Qed.

Lemma addItemRaw_no_quantity env user pid quantity size color st :
  requestedQuantity quantity = None ->
  fst (addItemRaw env user pid quantity size color st) = st.
Proof.
  intros Hq. unfold addItemRaw, mergeItemRaw. rewrite Hq.
  destruct (await env QProductFindById (findById pid (products st))) as [[p|]|];
    try reflexivity.
  destruct (await env QCartFindOne (carts st !! user)); reflexivity.
Qed.

(** X22. When the size is sent as a number and the colour as a string, a
    store in whose carts no two lines share product, size and colour stays
    so under the add, whatever its quantity field and its outcome. *)
Theorem addItemRaw_keeps_keys_unique env user pid quantity (size : Z) (color : string) st :
  (forall u, NoDup (map lineKey (default [] (carts st !! u)))) ->
  forall u,
    NoDup (map lineKey
             (default []
                (carts (fst (addItemRaw env user pid quantity (JsNumber size)
                               (JsString color) st)) !! u))).
Proof.
  intros Hnd u. destruct (requestedQuantity quantity) as [q|] eqn:Hq.
  - rewrite (addItemRaw_stored_form _ _ _ _ q) by exact Hq.
    destruct (addItem_cases env user pid (Some q) size color st)
      as [(Hst & _) | (p & _ & _ & _ & _ & Hst & _)]; rewrite Hst; [apply Hnd|].
    simpl. destruct (decide (u = user)) as [->|Hne].
    + rewrite lookup_insert_eq. simpl. apply mergeItem_keeps_keys_unique, Hnd.
    + rewrite lookup_insert_ne by congruence. apply Hnd.
  - rewrite addItemRaw_no_quantity by exact Hq. apply Hnd.
Qed.

Lemma addItemRaw_keeps_keys_unique_witness :
  let st :=
    fst (addItemRaw quietEnv "u1" "Q" JsUndefined (JsNumber 8) (JsString "Brown")
           (fst (addItemRaw quietEnv "u1" "P" (JsNumber 2) (JsNumber 9)
                   (JsString "Black") sampleStore))) in
  NoDup (map lineKey
           (default []
              (carts (fst (addItemRaw quietEnv "u1" "P" (JsString "3") (JsNumber 9)
                             (JsString "Black") st)) !! "u1"))).
Proof.
  intros st.
  apply (addItemRaw_keeps_keys_unique quietEnv "u1" "P" (JsString "3") 9 "Black" st).
  intros u.
  assert (Hc : carts st
               = <["u1" := [newItem sampleProduct 2 9 "Black";
                            newItem plainProduct 1 8 "Brown"]]> ∅)
    by (vm_compute; reflexivity).
  rewrite Hc. destruct (decide (u = "u1")) as [->|Hne].
  - rewrite lookup_insert_eq. apply (bool_decide_unpack _). vm_compute. exact I.
  - rewrite lookup_insert_ne by congruence. rewrite lookup_empty. apply NoDup_nil_2.
Defined.

(** ** The sizes of a new product, continued *)

(** X23. Every size entry the checkbox pass yields belongs to a selected
    size and carries the quantity of that size's field. When that pass
    yields nothing, the sizes of the new product are whole numbers from 6
    to 12 with no size twice, all of which the product stores. *)
Theorem processSizes_sizes body :
  (forall s, In s (sizesFromCheckboxes body) ->
     exists sizeStr,
       In sizeStr (asArray (body !! "sizes"))
       /\ raw_size s = Js.parseInt sizeStr
       /\ raw_quantity s
          = Js.orZero (bodyParseInt (body !! quantityKey (Js.parseInt sizeStr))))
  /\ (sizesFromCheckboxes body = [] ->
      NoDup (map raw_size (processSizes body))
      /\ (forall s, In s (processSizes body) ->
            exists n, raw_size s = Some n /\ 6 <= n <= 12)
      /\ exists stored,
           castSizes (processSizes body) = Some stored
           /\ map sz_size stored
              = map (fun s => Js.orZero (raw_size s)) (processSizes body)).
Proof.
  split.
  - intros s Hs. unfold sizesFromCheckboxes in Hs.
    destruct (truthy (body !! "sizes")); [|destruct Hs].
    apply in_flat_map in Hs as (sizeStr & Hin & Hs).
    exists sizeStr. split; [exact Hin|].
    cbv zeta in Hs. destruct (0 <? _); [|destruct Hs].
    destruct Hs as [<- | []]. split; reflexivity.
  - intros Hc. unfold processSizes. rewrite Hc. unfold sizesFromFields.
    cbn [flat_map].
    repeat match goal with
           | |- context [truthy ?v && ?b] => destruct (truthy v && b)
           end;
      cbn [app defaultSizes];
      (split;
       [ cbn [map raw_size]; apply (bool_decide_unpack _); vm_compute; exact I
       | split;
         [ intros s Hs; simpl in Hs;
           repeat match goal with
                  | H : _ \/ _ |- _ => destruct H as [<- | H]
                  | H : False |- _ => destruct H
                  end; eexists; (split; [reflexivity|lia])
         | eexists; split; reflexivity ] ]).
Qed.

Lemma processSizes_sizes_witness :
  NoDup (map raw_size
           (processSizes (<["size_7_quantity" := BStr "4"]>
                            (<["size_11_quantity" := BStr "2"]> ∅)))).
Proof.
  apply (proj2 (processSizes_sizes (<["size_7_quantity" := BStr "4"]>
                                      (<["size_11_quantity" := BStr "2"]> ∅)))).
  reflexivity.
Defined.

(** A size selected twice is stored twice. *)
Example processSizes_repeated_size :
  processSizes (<["sizes" := BArr ["9"; "9"]]> (<["size_9_quantity" := BStr "5"]> ∅))
  = [mkRawSize (Some 9) 5; mkRawSize (Some 9) 5].
Proof. vm_compute. reflexivity. Qed.
